(** * Stellar migration sampling: a shallow embedding

    This development embeds the two source files that carry the migration
    sampling logic of the repository,

    - [migration/src/simulations/migration.py]
      (classes [diskmigration] and [gaussian_migration]), and
    - [src/scripts/replace_zfinal.py]
      (the post-process replacement of [zfinal]),

    and states the properties of the specification over that embedding.

    Modelling conventions.

    - Python floats are modelled as real numbers ([R]): rounding and
      infinities are not represented, and NaN only as the missing value of a
      pandas column.  The places where Python raises on a float operation
      ([x / 0.0], [math.log] outside its domain) are modelled explicitly
      through [outcome].  Where the question is whether two floats are equal
      bit for bit, the function is modelled a second time on binary64
      numbers.
    - Python integers are [Z].
    - A Python call either returns a value or raises: [outcome].
    - Mutable objects are threaded explicitly: every method takes the object
      (and the part of the world it touches) and returns the new one, also when
      it raises. *)

From Stdlib Require Import Reals Lra ZArith Lia List String Ascii Bool.
From Stdlib Require Import DecimalString.
From Stdlib Require Floats.
Import ListNotations.

Local Open Scope R_scope.

(** ** Python prelude *)

(** The exception classes raised on the modelled paths. *)
Inductive exn : Set :=
| TypeError
| ValueError
| ZeroDivisionError
| AssertionError
| IndexError
| AttributeError.

(** Result of a Python call. *)
Inductive outcome (A : Type) : Type :=
| Ret (a : A)
| Raise (e : exn).

Arguments Ret {A} a.
Arguments Raise {A} e.

Definition bind {A B : Type} (m : outcome A) (k : A -> outcome B) : outcome B :=
  match m with
  | Ret a => k a
  | Raise e => Raise e
  end.

Declare Scope py_scope.
Delimit Scope py_scope with py.
Notation "x <- m ;; k" := (bind m (fun x => k))
  (at level 61, m at next level, right associativity) : py_scope.

(** The Python values that reach the type checks of the source. *)
Inductive pyval : Type :=
| PyNone
| PyBool (b : bool)
| PyInt (z : Z)
| PyFloat (x : R)
| PyStr (s : string).

(** [x == y] on floats. *)
Definition float_eqb (x y : R) : bool :=
  if Req_dec_T x y then true else false.

(** [x > 0] and friends on floats. *)
Definition float_ltb (x y : R) : bool :=
  if Rlt_dec x y then true else false.

(** [x / y] on Python floats: a zero divisor raises. *)
Definition float_div (x y : R) : outcome R :=
  if float_eqb y 0 then Raise ZeroDivisionError else Ret (x / y).

(** [math.log(x)]: a non-positive argument raises [ValueError]
    (math domain error). *)
Definition math_log (x : R) : outcome R :=
  if float_ltb 0 x then Ret (ln x) else Raise ValueError.

(** The real power [x ^ y] for a base [x >= 0] and an exponent [y > 0]:
    [0 ^ y = 0], and [x ^ y = exp (y * ln x)] for [x > 0]. *)
Definition real_pow (x y : R) : R :=
  if float_eqb x 0 then 0 else Rpower x y.

(** [x ** y] on floats, for the positive exponents the source uses.  A
    negative base with a fractional exponent makes Python return a complex
    number; that is not a float, and is [None] here. *)
Definition float_pow (x y : R) : option R :=
  if float_ltb x 0 then None else Some (real_pow x y).

(** [lst[i]] on a Python list: negative indices count from the end, an index
    out of range raises [IndexError]. *)
Definition py_index {A : Type} (l : list A) (i : Z) : outcome A :=
  let n := Z.of_nat (List.length l) in
  let j := (if i <? 0 then i + n else i)%Z in
  if ((0 <=? j) && (j <? n))%bool%Z
  then match nth_error l (Z.to_nat j) with
       | Some a => Ret a
       | None => Raise IndexError
       end
  else Raise IndexError.

(** ["%d" % z] *)
Definition format_d (z : Z) : string :=
  NilZero.string_of_int (Z.to_int z).

(** ** [src/scripts/replace_zfinal.py] *)

Module replace_zfinal.

(** The [random] module: a generator state and [random.random()], which
    returns the next uniform draw and the advanced state. *)
Class random_module : Type := {
  rng : Type;
  random_random : rng -> R * rng
}.

(** What the script imports and does not define: [ZONE_WIDTH] of [_globals],
    and the path arithmetic: [output_name_of] is the one of [main], from the
    path of an analog file to the name of its VICE output, and
    [analogdata_path] the one of [multioutput_to_pandas], from the name of an
    output to the path of the analog file it reads
    (['%s_analogdata.out' % full_path]). *)
Class globals : Type := {
  ZONE_WIDTH : R;
  output_name_of : string -> string;
  analogdata_path : string -> string
}.

(** A float cell of a pandas column: a number, or NaN ([None]). *)
Definition cell : Type := option R.

(** One row of the [stars] table of a VICE output, with the columns the script
    reads. *)
Record vice_star : Type := {
  vs_zone_origin : Z;
  vs_zone_final : Z;
  vs_age : R
}.

(** One row of the frame [multioutput_to_pandas] returns, with the columns
    [main] reads. *)
Record star_row : Type := {
  age : cell;
  galr_origin : cell;
  galr_final : cell
}.

(** One row of an [*_analogdata.out] file. *)
Record analog_row : Type := {
  zone_origin : Z;
  time_origin : R;
  analog_id : Z;
  zfinal : cell
}.

(** An [*_analogdata.out] file as [pd.read_csv(filepath, sep='\t')] returns
    it: the four named columns, behind [index_columns] unnamed leading
    columns that hold the row numbers.  A file written by the simulation has
    none; every [to_csv] adds one.  The text of the numbers is not
    represented. *)
Record frame : Type := {
  index_columns : nat;
  rows : list analog_row
}.

(** The files the script touches: the analog files found by [p.glob], the
    contents of the analog files, and the VICE outputs by name. *)
Record world : Type := {
  analog_paths : list string;
  analog_file : string -> frame;
  vice_output : string -> list vice_star
}.

(** [analogdata.to_csv(filepath, sep='\t')]: the frame is written with its
    index, the row numbers, as one more leading column. *)
Definition to_csv (w : world) (filepath : string) (analogdata : frame) : world :=
  {| analog_paths := analog_paths w;
     analog_file := fun p =>
       if String.eqb p filepath
       then {| index_columns := S (index_columns analogdata);
               rows := rows analogdata |}
       else analog_file w p;
     vice_output := vice_output w |}.

(** [sech_scale(age, rfinal)] *)
Definition sech_scale (age rfinal : R) : R :=
  0.25 * exp ((age - 5) / 7.0) * exp ((rfinal - 8) / 6.0).

(** [inv_sech_cdf(cdf, scale)]: [-scale * m.log(1/cdf - 1)].  [cdf] is a
    Python float (the value of [random.random()]), so [1/cdf] raises on
    zero, and [m.log] raises outside its domain. *)
Definition inv_sech_cdf (cdf scale : R) : outcome R :=
  (q <- float_div 1 cdf ;;
   l <- math_log (q - 1) ;;
   Ret (- scale * l))%py.

(** [sech_dist(z, scale)]: [1/(4 * scale) * np.cosh(z / (2 * scale))**-2],
    on Python floats: both quotients raise on a zero [scale]. *)
Definition sech_dist (z scale : R) : outcome R :=
  (a <- float_div 1 (4 * scale) ;;
   x <- float_div z (2 * scale) ;;
   Ret (a * powerRZ (cosh x) (-2)))%py.

(** [sech_cdf(z, scale)]: [1 / (1 + np.exp(-z / scale))], on Python floats:
    the inner quotient raises on a zero [scale]; the outer divisor is at
    least 1. *)
Definition sech_cdf (z scale : R) : outcome R :=
  (q <- float_div (- z) scale ;;
   Ret (1 / (1 + exp q)))%py.

(** [sech_scale] on NumPy floats that may be NaN: NaN in, NaN out. *)
Definition sech_scale_np (age rfinal : cell) : cell :=
  match age, rfinal with
  | Some a, Some r => Some (sech_scale a r)
  | _, _ => None
  end.

(** [inv_sech_cdf] at a scale that may be NaN: the logarithm is evaluated, and
    may raise, all the same, and [-nan * m.log(...)] is NaN. *)
Definition inv_sech_cdf_np (cdf : R) (scale : cell) : outcome cell :=
  match scale with
  | Some s => (z <- inv_sech_cdf cdf s ;; Ret (Some z))%py
  | None =>
      (q <- float_div 1 cdf ;;
       l <- math_log (q - 1) ;;
       Ret None)%py
  end.

Section Script.
Context {RM : random_module} {G : globals}.

(** [multioutput_to_pandas(output_name)]: the stars of the output, joined
    with the analog file of the output, with the zone columns converted to
    radii.  The join [stars[['analog_id', 'zfinal']] = analogdata[[...]]]
    aligns on the row index and keeps the rows of [stars], except on a frame
    without rows, which takes over the index of [analogdata]: it then has one
    row per analog row, with NaN in every column of [stars].  (The two
    columns the join adds are not read by [main].) *)
Definition multioutput_to_pandas (w : world) (output_name : string) : list star_row :=
  let analogdata := analog_file w (analogdata_path output_name) in
  match vice_output w output_name with
  | [] =>
      map (fun _ => {| age := None; galr_origin := None; galr_final := None |})
          (rows analogdata)
  | stars =>
      map (fun s => {| age := Some (vs_age s);
                       galr_origin := Some (IZR (vs_zone_origin s) * ZONE_WIDTH);
                       galr_final := Some (IZR (vs_zone_final s) * ZONE_WIDTH) |})
          stars
  end.

(** The loop [for i in range(stars.shape[0])] of [main]: one uniform draw and
    one sample per row, in order; an exception ends it. *)
Fixpoint sample_loop (stars : list star_row) (g : rng) : outcome (list cell) * rng :=
  match stars with
  | [] => (Ret [], g)
  | s :: rest =>
      let hz := sech_scale_np (age s) (galr_final s) in
      let (u, g1) := random_random g in
      match inv_sech_cdf_np u hz with
      | Raise e => (Raise e, g1)
      | Ret z =>
          match sample_loop rest g1 with
          | (Ret zs, g2) => (Ret (z :: zs), g2)
          | (Raise e, g2) => (Raise e, g2)
          end
      end
  end.

(** [analogdata['zfinal'] = np.array(samples)], on columns of one length. *)
Fixpoint set_zfinal (t : list analog_row) (samples : list cell) : list analog_row :=
  match t, samples with
  | r :: t', z :: samples' =>
      {| zone_origin := zone_origin r; time_origin := time_origin r;
         analog_id := analog_id r; zfinal := z |} :: set_zfinal t' samples'
  | _, _ => []
  end.

(** The body of the loop over the analog files in [main]. *)
Definition process_file (w : world) (g : rng) (filepath : string)
  : outcome unit * world * rng :=
  let output_name := output_name_of filepath in
  let stars := multioutput_to_pandas w output_name in
  let analogdata := analog_file w filepath in
  if Nat.eqb (List.length (rows analogdata)) (List.length stars) then
    match sample_loop stars g with
    | (Ret samples, g') =>
        (Ret tt,
         to_csv w filepath
           {| index_columns := index_columns analogdata;
              rows := set_zfinal (rows analogdata) samples |},
         g')
    | (Raise e, g') => (Raise e, w, g')
    end
  else (Raise AssertionError, w, g).

(** The loop of [main] over a list of analog files. *)
Fixpoint process_files (w : world) (g : rng) (filepaths : list string)
  : outcome unit * world * rng :=
  match filepaths with
  | [] => (Ret tt, w, g)
  | filepath :: rest =>
      match process_file w g filepath with
      | (Ret _, w', g') => process_files w' g' rest
      | (Raise e, w', g') => (Raise e, w', g')
      end
  end.

(** [main()] *)
Definition main (w : world) (g : rng) : outcome unit * world * rng :=
  process_files w g (analog_paths w).

(** The first [n] uniform draws from a generator state, and the state after
    them. *)
Fixpoint draws (n : nat) (g : rng) : list R :=
  match n with
  | O => []
  | S n' => let (u, g1) := random_random g in u :: draws n' g1
  end.

Fixpoint rng_after (n : nat) (g : rng) : rng :=
  match n with
  | O => g
  | S n' => rng_after n' (snd (random_random g))
  end.

End Script.

End replace_zfinal.

(** ** [migration/src/simulations/migration.py] *)

Module migration.

(** ["%.2f" % x]: the decimal rendering of a float is Python's own and is
    kept abstract. *)
Class format_module : Type := {
  format_2f : R -> string
}.

(** *** class [diskmigration] *)

Module diskmigration.

(** The base class [vice.toolkit.hydrodisk.hydrodiskstars], which is not part
    of the repository: its constructor, its call and [decomp_filter] act on a
    state of its own, which exposes the attributes [analog_index] and
    [analog_data] that [diskmigration] reads. *)
Class hydrodiskstars : Type := {
  hydro : Type;
  super_init : list R -> pyval -> list (string * pyval) -> hydro;
  super_call : hydro -> Z -> R -> R -> Z * hydro;
  decomp_filter : hydro -> list Z -> hydro;
  analog_index : hydro -> Z;
  analog_data_zfinal : hydro -> list R;
  analog_data_id : hydro -> list Z
}.

(** A text file object opened for writing: its name, whether it was closed,
    and what was written to it since it was opened (mode ['w'] truncates). *)
Record file : Type := {
  f_name : string;
  f_closed : bool;
  f_data : string
}.

(** [open(filename, 'w')] *)
Definition open_w (filename : string) : file :=
  {| f_name := filename; f_closed := false; f_data := EmptyString |}.

(** [f.write(s)]: a closed file raises [ValueError]. *)
Definition file_write (f : file) (s : string) : outcome file :=
  if f_closed f then Raise ValueError
  else Ret {| f_name := f_name f; f_closed := false; f_data := f_data f ++ s |}.

(** [f.close()] *)
Definition file_close (f : file) : file :=
  {| f_name := f_name f; f_closed := true; f_data := f_data f |}.

(** The header line written by [__init__]. *)
Definition header : string :=
  String "#" (String " " ("zone_origin" ++ String (ascii_of_nat 9)
    ("time_origin" ++ String (ascii_of_nat 9)
    ("analog_id" ++ String (ascii_of_nat 9)
    ("zfinal" ++ String (ascii_of_nat 10) EmptyString))))).

Section Class_diskmigration.
Context {H : hydrodiskstars} {F : format_module}.

(** A [diskmigration] object: the state of the base class, and the two
    attributes the subclass adds. *)
Record instance : Type := {
  base : hydro;
  _file : file;
  _write : bool
}.

(** ["%d\t%.2f\t%d\t%.2f\n" % (zone, tform, analog_id, finalz)] *)
Definition data_line (zone : Z) (tform : R) (analog_id : Z) (finalz : R) : string :=
  format_d zone ++ String (ascii_of_nat 9)
    (format_2f tform ++ String (ascii_of_nat 9)
    (format_d analog_id ++ String (ascii_of_nat 9)
    (format_2f finalz ++ String (ascii_of_nat 10) EmptyString))).

(** [diskmigration.__init__(radbins, mode, filename, **kwargs)].  The second
    component is the list of the files opened for writing so far. *)
Definition __init__ (opened : list string) (radbins : list R) (mode : pyval)
    (filename : pyval) (kwargs : list (string * pyval))
  : outcome instance * list string :=
  let b := super_init radbins mode kwargs in
  match filename with
  | PyStr name =>
      match file_write (open_w name) header with
      | Ret f =>
          let b' := decomp_filter b [1; 2]%Z in
          (Ret {| base := b'; _file := f; _write := false |}, name :: opened)
      | Raise e => (Raise e, name :: opened)
      end
  | _ => (Raise TypeError, opened)
  end.

(** The value and the id written for the current analog. *)
Definition analog_fields (b : hydro) : outcome (R * Z) :=
  if (analog_index b =? -1)%Z then Ret (0, (-1)%Z)
  else
    (finalz <- py_index (analog_data_zfinal b) (analog_index b) ;;
     analog_id <- py_index (analog_data_id b) (analog_index b) ;;
     Ret (finalz, analog_id))%py.

(** [diskmigration.__call__(zone, tform, time)] *)
Definition __call__ (self : instance) (zone : Z) (tform time : R)
  : outcome Z * instance :=
  if float_eqb tform time then
    let (_, b) := super_call (base self) zone tform time in
    let self1 := {| base := b; _file := _file self; _write := _write self |} in
    if _write self1 then
      match analog_fields b with
      | Ret (finalz, analog_id) =>
          match file_write (_file self1) (data_line zone tform analog_id finalz) with
          | Ret f => (Ret zone, {| base := b; _file := f; _write := _write self1 |})
          | Raise e => (Raise e, self1)
          end
      | Raise e => (Raise e, self1)
      end
    else (Ret zone, self1)
  else
    let (z, b) := super_call (base self) zone tform time in
    (Ret z, {| base := b; _file := _file self; _write := _write self |}).

(** [diskmigration.close_file()] *)
Definition close_file (self : instance) : instance :=
  {| base := base self; _file := file_close (_file self); _write := _write self |}.

(** The property [write]. *)
Definition write (self : instance) : bool := _write self.

(** The setter of [write]. *)
Definition set_write (self : instance) (value : pyval) : outcome unit * instance :=
  match value with
  | PyBool v => (Ret tt, {| base := base self; _file := _file self; _write := v |})
  | _ => (Raise TypeError, self)
  end.

(** The text of a sequence of records (zone, tform, analog_id, finalz), one
    [data_line] each. *)
Fixpoint data_lines (records : list (Z * R * Z * R)) : string :=
  match records with
  | [] => EmptyString
  | (zone, tform, analog_id, finalz) :: rest =>
      data_line zone tform analog_id finalz ++ data_lines rest
  end.

(** The calls a driver makes on an object after it has built it, and the
    object they leave behind (whether they return or raise). *)
Inductive method_call : Type :=
| Call (zone : Z) (tform time : R)
| SetWrite (value : pyval)
| CloseFile.

Definition after_call (self : instance) (c : method_call) : instance :=
  match c with
  | Call zone tform time => snd (__call__ self zone tform time)
  | SetWrite value => snd (set_write self value)
  | CloseFile => close_file self
  end.

Definition after_calls (self : instance) (cs : list method_call) : instance :=
  fold_left after_call cs self.

End Class_diskmigration.

End diskmigration.

(** *** class [gaussian_migration] *)

Module gaussian_migration.

(** What the class reads and the module does not define: [END_TIME] and
    [ZONE_WIDTH] are imported from [_globals]; [sample_gaussian], [rform] and
    [some_interpolator] are bound nowhere in the file and are taken as given,
    and the bare name [migr_scale] is read as the function of the class body.
    [sample_gaussian] draws from a generator state; its [scale] argument is
    whatever [migr_scale] returned. *)
Class globals : Type := {
  END_TIME : R;
  ZONE_WIDTH : R;
  rng : Type;
  sample_gaussian : rng -> R -> option R -> R * rng;
  rform : R;
  some_interpolator : R -> R -> pyval
}.

(** [migr_scale(age, rform)]: [1.35 * (age ** 0.33) * (rform / 8) ** 0.61] *)
Definition migr_scale (age rform : R) : option R :=
  match float_pow age 0.33 with
  | None => None
  | Some a =>
      match float_pow (rform / 8) 0.61 with
      | None => None
      | Some b => Some (1.35 * a * b)
      end
  end.

(** A [gaussian_migration] object: [zone_width], and [dR] once a formation
    call has set it. *)
Record instance : Type := {
  zone_width : R;
  dR : option R
}.

Section Class_gaussian_migration.
Context {G : globals}.

(** [gaussian_migration.__init__(zone_width=ZONE_WIDTH)] *)
Definition __init__ (zone_width : option R) : instance :=
  {| zone_width := match zone_width with Some zw => zw | None => ZONE_WIDTH end;
     dR := None |}.

(** The loop [while True] of the formation branch, run for at most [fuel]
    iterations: each iteration draws a new [dR], and the loop is left with
    the first one that makes [Rform + dR > 0]. *)
Fixpoint resample_loop (fuel : nat) (Rform age : R) (g : rng) : option (R * rng) :=
  match fuel with
  | O => None
  | S fuel' =>
      let (dR, g') := sample_gaussian g 0 (migr_scale age rform) in
      let Rfinal := Rform + dR in
      if float_ltb 0 Rfinal then Some (dR, g')
      else resample_loop fuel' Rform age g'
  end.

(** [gaussian_migration.__call__(zone, tform, time)].  [None] when the loop
    of the formation branch does not end within [fuel] iterations. *)
Definition __call__ (fuel : nat) (self : instance) (g : rng) (zone : Z)
    (tform time : R) : option (outcome pyval * instance * rng) :=
  let Rform := zone_width self * (IZR zone + 0.5) in
  let age := END_TIME - tform in
  if float_eqb tform time then
    match resample_loop fuel Rform age g with
    | Some (dR, g') =>
        Some (Ret PyNone, {| zone_width := zone_width self; dR := Some dR |}, g')
    | None => None
    end
  else
    match dR self with
    | Some d => Some (Ret (some_interpolator Rform (Rform + d)), self, g)
    | None => Some (Raise AttributeError, self, g)
    end.

(** The generator state after [n] draws of the formation loop, and the
    [n]-th draw (counting from 0). *)
Fixpoint rng_after (n : nat) (age : R) (g : rng) : rng :=
  match n with
  | O => g
  | S n' => rng_after n' age (snd (sample_gaussian g 0 (migr_scale age rform)))
  end.

Definition draw_at (n : nat) (age : R) (g : rng) : R :=
  fst (sample_gaussian (rng_after n age g) 0 (migr_scale age rform)).

End Class_gaussian_migration.

End gaussian_migration.

End migration.

(** ** The float expressions on IEEE doubles

    [migr_scale] and [inv_sech_cdf] once more, with Python's floats as
    binary64 numbers, for the questions that the real numbers cannot answer:
    whether a value is the specification's bit for bit, and whether it is
    finite.  [**] on floats and [math.log] go to the [pow] and [log] of the C
    library, which are taken as given. *)

Module doubles.
Import PrimFloat.
#[local] Set Warnings "-inexact-float".

Class libm : Type := {
  pow : float -> float -> float;
  log : float -> float
}.

Section Doubles.
Context {L : libm}.

(** [migr_scale(age, rform)]: [1.35 * (age ** 0.33) * (rform / 8) ** 0.61],
    multiplied from left to right. *)
Definition migr_scale (age rform : float) : float :=
  (1.35 * pow age 0.33 * pow (rform / 8) 0.61)%float.

(** The formula of the specification, "1.35 * (radius_origin / 8)^0.61 *
    (age)^0.33", multiplied from left to right. *)
Definition spec_sigma (age radius_origin : float) : float :=
  (1.35 * pow (radius_origin / 8) 0.61 * pow age 0.33)%float.

(** [inv_sech_cdf(cdf, scale)]: [-scale * m.log(1/cdf - 1)].  The division
    raises on a zero divisor and returns an infinity when it overflows;
    [m.log] raises on an argument that is zero or negative. *)
Definition inv_sech_cdf (cdf scale : float) : outcome float :=
  if (cdf =? 0)%float then Raise ZeroDivisionError
  else
    let x := (1 / cdf - 1)%float in
    if (x <=? 0)%float then Raise ValueError
    else Ret (- scale * log x)%float.

End Doubles.

End doubles.

(** ** The formulas of the specification

    These follow the words of the specification, not the source; the
    theorems below compare them with the code. *)

Module spec.

(** "h_z(age, radius_final) = 0.25 * exp((age - 5)/7.0) *
    exp((radius_final - 8)/6.0)" *)
Definition h_z (age radius_final : R) : R :=
  0.25 * exp ((age - 5) / 7.0) * exp ((radius_final - 8) / 6.0).

(** "z = -h_z * ln(1/u - 1)" *)
Definition z (h_z u : R) : R :=
  - h_z * ln (1 / u - 1).

(** "sigma(age, radius_origin) = 1.35 * (radius_origin / 8)^0.61 *
    (age)^0.33" *)
Definition sigma (age radius_origin : R) : R :=
  1.35 * real_pow (radius_origin / 8) 0.61 * real_pow age 0.33.

(** "header line zone_origin\ttime_origin\tanalog_id\tzfinal\n" *)
Definition header : string :=
  "zone_origin" ++ String (ascii_of_nat 9)
    ("time_origin" ++ String (ascii_of_nat 9)
    ("analog_id" ++ String (ascii_of_nat 9)
    ("zfinal" ++ String (ascii_of_nat 10) EmptyString))).

End spec.

(** ** Concrete instances, used to run the model on examples *)

Module fixtures.

(** A generator that replays a tape of draws ([0.5] once the tape is used
    up). *)
#[local] Instance tape_random : replace_zfinal.random_module := {|
  replace_zfinal.rng := list R;
  replace_zfinal.random_random := fun g => (hd 0.5 g, tl g)
|}.

(** Paths and output names are taken to be the same strings. *)
#[local] Instance script_globals : replace_zfinal.globals := {|
  replace_zfinal.ZONE_WIDTH := 0.1;
  replace_zfinal.output_name_of := fun p => p;
  replace_zfinal.analogdata_path := fun name => name
|}.

(** The one row of the analog file of [one_file]. *)
Definition a_row : replace_zfinal.analog_row :=
  {| replace_zfinal.zone_origin := 4; replace_zfinal.time_origin := 0;
     replace_zfinal.analog_id := 7; replace_zfinal.zfinal := Some 0.25 |}.

(** One analog file with one row, as the simulation wrote it, whose output
    has [stars] as star particles. *)
Definition one_file (stars : list replace_zfinal.vice_star) : replace_zfinal.world :=
  {| replace_zfinal.analog_paths := ["a_analogdata.out"%string];
     replace_zfinal.analog_file := fun _ =>
       {| replace_zfinal.index_columns := 0; replace_zfinal.rows := [a_row] |};
     replace_zfinal.vice_output := fun _ => stars |}.

Definition a_star : replace_zfinal.vice_star :=
  {| replace_zfinal.vs_zone_origin := 4; replace_zfinal.vs_zone_final := 80;
     replace_zfinal.vs_age := 5 |}.

(** A Gaussian sampler that replays a tape of standard-normal draws. *)
#[local] Instance tape_gaussian : migration.gaussian_migration.globals := {|
  migration.gaussian_migration.END_TIME := 13.2;
  migration.gaussian_migration.ZONE_WIDTH := 0.1;
  migration.gaussian_migration.rng := list R;
  migration.gaussian_migration.sample_gaussian := fun g loc scale =>
    (loc + match scale with Some s => s | None => 0 end * hd 0 g, tl g);
  migration.gaussian_migration.rform := 8;
  migration.gaussian_migration.some_interpolator := fun _ Rfinal => PyFloat Rfinal
|}.

(** A base class with two analogs: a call in zone 0 or 1 links the analog of
    that index, a call elsewhere finds none; the zone it reports is the next
    one. *)
#[local] Instance toy_hydro : migration.diskmigration.hydrodiskstars := {|
  migration.diskmigration.hydro := Z;
  migration.diskmigration.super_init := fun _ _ _ => (-1)%Z;
  migration.diskmigration.super_call := fun _ zone _ _ =>
    ((zone + 1)%Z,
     if ((0 <=? zone) && (zone <? 2))%bool%Z then zone else (-1)%Z);
  migration.diskmigration.decomp_filter := fun h _ => h;
  migration.diskmigration.analog_index := fun h => h;
  migration.diskmigration.analog_data_zfinal := fun _ => [0.25; -0.5];
  migration.diskmigration.analog_data_id := fun _ => [17; 23]%Z
|}.

(** A rendering of floats that only knows zero. *)
#[local] Instance toy_format : migration.format_module := {|
  migration.format_2f := fun x =>
    if float_eqb x 0 then "0.00"%string else "x.xx"%string
|}.

(** A [diskmigration] object as the constructor leaves it, with the given
    [write] flag. *)
Definition toy_disk (w : bool) : @migration.diskmigration.instance toy_hydro :=
  {| migration.diskmigration.base := (-1)%Z;
     migration.diskmigration._file :=
       {| migration.diskmigration.f_name := "stars.out";
          migration.diskmigration.f_closed := false;
          migration.diskmigration.f_data := migration.diskmigration.header |};
     migration.diskmigration._write := w |}.

(** A base class that links the analog whose index is the zone itself, with
    the same two analogs. *)
#[local] Instance zone_index_hydro : migration.diskmigration.hydrodiskstars := {|
  migration.diskmigration.hydro := Z;
  migration.diskmigration.super_init := fun _ _ _ => (-1)%Z;
  migration.diskmigration.super_call := fun _ zone _ _ => (zone, zone);
  migration.diskmigration.decomp_filter := fun h _ => h;
  migration.diskmigration.analog_index := fun h => h;
  migration.diskmigration.analog_data_zfinal := fun _ => [0.25; -0.5];
  migration.diskmigration.analog_data_id := fun _ => [17; 23]%Z
|}.

(** An object over [zone_index_hydro] with an empty open file, writing
    enabled, and the given base state. *)
Definition zone_index_disk (b : Z)
  : @migration.diskmigration.instance zone_index_hydro :=
  {| migration.diskmigration.base := b;
     migration.diskmigration._file := migration.diskmigration.open_w "stars.out";
     migration.diskmigration._write := true |}.

Module binary64.
Import PrimFloat.

(** The values of the C library that CPython returns at the arguments used
    below: [2.0 ** 0.33 = 0x1.41cba0e634b2cp+0],
    [0.375 ** 0.61 = 0x1.1977cf2622fc4p-1] and [math.log(inf) = inf];
    [0.33] and [0.61] are the doubles [0x1.51eb851eb851fp-2] and
    [0x1.3851eb851eb85p-1]. *)
#[local] Instance cpython_libm : doubles.libm := {|
  doubles.pow := fun x y =>
    if (eqb x 2 && eqb y 0x1.51eb851eb851fp-2)%bool%float
    then 0x1.41cba0e634b2cp+0%float
    else if (eqb x 0x1.8p-2 && eqb y 0x1.3851eb851eb85p-1)%bool%float
    then 0x1.1977cf2622fc4p-1%float
    else nan;
  doubles.log := fun x => if eqb x infinity then infinity else nan
|}.

End binary64.

End fixtures.

(** * Properties *)

(** ** Floats *)

Lemma float_eqb_refl (x : R) : float_eqb x x = true.
Proof. unfold float_eqb. destruct (Req_dec_T x x); congruence. Qed.

Lemma float_eqb_eq (x y : R) : float_eqb x y = true <-> x = y.
Proof.
  unfold float_eqb. destruct (Req_dec_T x y); split; intros; congruence.
Qed.

Lemma float_eqb_neq (x y : R) : float_eqb x y = false <-> x <> y.
Proof.
  unfold float_eqb. destruct (Req_dec_T x y); split; intros; congruence.
Qed.

Lemma float_ltb_lt (x y : R) : float_ltb x y = true <-> x < y.
Proof.
  unfold float_ltb. destruct (Rlt_dec x y); split; intros; congruence.
Qed.

Lemma float_ltb_ge (x y : R) : float_ltb x y = false <-> y <= x.
Proof.
  unfold float_ltb. destruct (Rlt_dec x y); split; intros;
    try congruence; lra.
Qed.

Lemma float_div_nonzero (x y : R) : y <> 0 -> float_div x y = Ret (x / y).
Proof.
  intros Hy. unfold float_div.
  apply float_eqb_neq in Hy. now rewrite Hy.
Qed.

Lemma math_log_pos (x : R) : 0 < x -> math_log x = Ret (ln x).
Proof.
  intros Hx. unfold math_log.
  apply float_ltb_lt in Hx. now rewrite Hx.
Qed.

(** ** The vertical-height sampler *)

Section Sampler.
Import replace_zfinal.

(** On a draw strictly between 0 and 1 the quotient [1/u] exceeds 1. *)
Lemma inv_minus_one_pos (u : R) : 0 < u < 1 -> 0 < 1 / u - 1.
Proof.
  intros [H0 H1].
  assert (Hinv : 1 < / u).
  { rewrite <- Rinv_1. apply Rinv_lt_contravar; lra. }
  unfold Rdiv. lra.
Qed.

Lemma inv_sech_cdf_open (u scale : R) :
  0 < u < 1 -> inv_sech_cdf u scale = Ret (- scale * ln (1 / u - 1)).
Proof.
  intros Hu. unfold inv_sech_cdf.
  rewrite float_div_nonzero by lra. cbn [bind].
  rewrite math_log_pos by now apply inv_minus_one_pos.
  reflexivity.
Qed.

Lemma inv_sech_cdf_zero (scale : R) :
  inv_sech_cdf 0 scale = Raise ZeroDivisionError.
Proof.
  unfold inv_sech_cdf, float_div. now rewrite float_eqb_refl.
Qed.

Lemma inv_sech_cdf_one (scale : R) :
  inv_sech_cdf 1 scale = Raise ValueError.
Proof.
  unfold inv_sech_cdf. rewrite float_div_nonzero by lra. cbn [bind].
  unfold math_log.
  assert (E : float_ltb 0 (1 / 1 - 1) = false) by (apply float_ltb_ge; lra).
  now rewrite E.
Qed.

(** Whatever [inv_sech_cdf] returns is the value of the expression. *)
Lemma inv_sech_cdf_ret (u scale z : R) :
  inv_sech_cdf u scale = Ret z -> z = - scale * ln (1 / u - 1).
Proof.
  unfold inv_sech_cdf, float_div, math_log.
  destruct (float_eqb u 0); cbn [bind]; [discriminate|].
  destruct (float_ltb 0 (1 / u - 1)); cbn [bind]; [|discriminate].
  congruence.
Qed.

End Sampler.

Section Post_process.
Import replace_zfinal.
Context {RM : random_module} {G : globals}.

(** The sample of one row: the expression at a real scale, NaN at a NaN
    scale. *)
Lemma inv_sech_cdf_np_ret (u : R) (hz c : cell) :
  inv_sech_cdf_np u hz = Ret c ->
  c = match hz with
      | Some s => Some (- s * ln (1 / u - 1))
      | None => None
      end.
Proof.
  destruct hz as [s|]; cbn [inv_sech_cdf_np].
  - destruct (inv_sech_cdf u s) as [z0|e] eqn:Hinv; cbn [bind];
      [|discriminate].
    apply inv_sech_cdf_ret in Hinv. congruence.
  - unfold float_div, math_log.
    destruct (float_eqb u 0); cbn [bind]; [discriminate|].
    destruct (float_ltb 0 (1 / u - 1)); cbn [bind]; congruence.
Qed.

Lemma inv_sech_cdf_np_open (u : R) (hz : cell) :
  0 < u < 1 ->
  inv_sech_cdf_np u hz
  = Ret match hz with
        | Some s => Some (- s * ln (1 / u - 1))
        | None => None
        end.
Proof.
  intros Hu. destruct hz as [s|]; cbn [inv_sech_cdf_np].
  - now rewrite inv_sech_cdf_open.
  - rewrite float_div_nonzero by lra. cbn [bind].
    now rewrite math_log_pos by now apply inv_minus_one_pos.
Qed.

Lemma inv_sech_cdf_np_zero (hz : cell) :
  inv_sech_cdf_np 0 hz = Raise ZeroDivisionError.
Proof.
  destruct hz as [s|]; cbn [inv_sech_cdf_np].
  - now rewrite inv_sech_cdf_zero.
  - unfold float_div. now rewrite float_eqb_refl.
Qed.

Lemma inv_sech_cdf_np_one (hz : cell) :
  inv_sech_cdf_np 1 hz = Raise ValueError.
Proof.
  destruct hz as [s|]; cbn [inv_sech_cdf_np].
  - now rewrite inv_sech_cdf_one.
  - rewrite float_div_nonzero by lra. cbn [bind]. unfold math_log.
    assert (E : float_ltb 0 (1 / 1 - 1) = false) by (apply float_ltb_ge; lra).
    now rewrite E.
Qed.

(** The samples of a completed loop are the values of the expression at the
    successive draws, and the generator has advanced by one draw per row. *)
Lemma sample_loop_ret (stars : list star_row) :
  forall (g g' : rng) (zs : list cell),
    sample_loop stars g = (Ret zs, g') ->
    zs = map (fun su =>
                match sech_scale_np (age (fst su)) (galr_final (fst su)) with
                | Some s => Some (- s * ln (1 / snd su - 1))
                | None => None
                end)
             (combine stars (draws (List.length stars) g))
    /\ g' = rng_after (List.length stars) g.
Proof.
  induction stars as [|s rest IH]; intros g g' zs Hloop.
  - cbn in Hloop. inversion Hloop; subst. now split.
  - cbn [sample_loop] in Hloop. cbn [List.length draws rng_after].
    destruct (random_random g) as [u g1] eqn:Hdraw.
    destruct (inv_sech_cdf_np u _) as [z0|e] eqn:Hinv; [|discriminate].
    destruct (sample_loop rest g1) as [[zs'|e] g2] eqn:Hrest; [|discriminate].
    inversion Hloop; subst. clear Hloop.
    destruct (IH _ _ _ Hrest) as [Hzs Hg].
    apply inv_sech_cdf_np_ret in Hinv.
    cbn [combine map fst snd]. split; [|exact Hg].
    now rewrite Hinv, <- Hzs.
Qed.

(** A loop whose draws all lie strictly between 0 and 1 completes. *)
Lemma sample_loop_total (stars : list star_row) :
  forall (g : rng),
    Forall (fun u => 0 < u < 1) (draws (List.length stars) g) ->
    exists zs, sample_loop stars g = (Ret zs, rng_after (List.length stars) g).
Proof.
  induction stars as [|s rest IH]; intros g Hall.
  - exists []. reflexivity.
  - cbn [List.length draws] in Hall. cbn [sample_loop List.length rng_after].
    destruct (random_random g) as [u g1] eqn:Hdraw. cbn [snd].
    inversion Hall as [|? ? Hu Hrest]; subst.
    rewrite inv_sech_cdf_np_open by exact Hu.
    destruct (IH g1 Hrest) as [zs Hzs]. rewrite Hzs.
    now eexists.
Qed.

Lemma set_zfinal_column (t : list analog_row) :
  forall samples, List.length t = List.length samples ->
    map zfinal (set_zfinal t samples) = samples.
Proof.
  induction t as [|r t IH]; intros [|z0 samples] Hlen;
    cbn in *; try congruence.
  f_equal. apply IH. congruence.
Qed.

Lemma draws_length (n : nat) :
  forall g : rng, List.length (draws n g) = n.
Proof.
  induction n as [|n IHn]; intros g; cbn; [reflexivity|].
  destruct (random_random g). cbn. now rewrite IHn.
Qed.

Lemma sample_loop_length (stars : list star_row) :
  forall g g' zs, sample_loop stars g = (Ret zs, g') ->
    List.length zs = List.length stars.
Proof.
  intros g g' zs Hloop. apply sample_loop_ret in Hloop as [-> _].
  rewrite length_map, length_combine, draws_length. apply Nat.min_id.
Qed.

(** C3: the sampled height is [-h_z * ln(1/u - 1)] with
    [h_z = 0.25 * exp((age - 5)/7.0) * exp((radius_final - 8)/6.0)]:
    [inv_sech_cdf(u, sech_scale(age, rfinal))] returns exactly that value for
    every [age], [rfinal] and [u] strictly between 0 and 1, and after a
    completed pass over an analog file its [zfinal] column holds, row by
    row, that value at the row's age, final radius and uniform draw (NaN
    where the row has no age or radius). *)
Theorem sampled_height_is_spec_formula :
  (forall age rfinal u : R,
      0 < u < 1 ->
      inv_sech_cdf u (sech_scale age rfinal) = Ret (spec.z (spec.h_z age rfinal) u))
  /\ (forall (w w' : world) (g g' : rng) (filepath : string),
         process_file w g filepath = (Ret tt, w', g') ->
         let stars := multioutput_to_pandas w (output_name_of filepath) in
         map zfinal (rows (analog_file w' filepath))
         = map (fun su =>
                  match age (fst su), galr_final (fst su) with
                  | Some a, Some r => Some (spec.z (spec.h_z a r) (snd su))
                  | _, _ => None
                  end)
               (combine stars (draws (List.length stars) g))).
Proof.
  split.
  - intros a r u Hu. now apply inv_sech_cdf_open.
  - intros w w' g g' filepath Hrun stars. subst stars.
    unfold process_file in Hrun.
    destruct (Nat.eqb _ _) eqn:Hlen; [|discriminate].
    apply Nat.eqb_eq in Hlen.
    destruct (sample_loop _ g) as [[zs|e] g1] eqn:Hloop; [|discriminate].
    inversion Hrun; subst. clear Hrun.
    cbn [to_csv analog_file rows]. rewrite String.eqb_refl. cbn [rows].
    rewrite set_zfinal_column
      by (rewrite (sample_loop_length _ _ _ _ Hloop); exact Hlen).
    apply sample_loop_ret in Hloop as [-> _].
    apply map_ext. intros [s u]. cbn [fst snd]. unfold sech_scale_np.
    destruct (age s), (galr_final s); reflexivity.
Qed.

End Post_process.

(** The pass over the one-row file with one star, on the draw [0.5]. *)
Lemma tape_pass_run :
  @replace_zfinal.process_file fixtures.tape_random fixtures.script_globals
    (fixtures.one_file [fixtures.a_star]) [0.5] "a_analogdata.out"
  = (Ret tt,
     replace_zfinal.to_csv (fixtures.one_file [fixtures.a_star])
       "a_analogdata.out"
       {| replace_zfinal.index_columns := 0;
          replace_zfinal.rows :=
            [ {| replace_zfinal.zone_origin := 4;
                 replace_zfinal.time_origin := 0;
                 replace_zfinal.analog_id := 7;
                 replace_zfinal.zfinal :=
                   Some (- replace_zfinal.sech_scale 5 (80 * 0.1)
                         * ln (1 / 0.5 - 1)) |} ] |},
     []).
Proof.
  unfold replace_zfinal.process_file, replace_zfinal.multioutput_to_pandas.
  cbn [fixtures.one_file replace_zfinal.analog_file replace_zfinal.rows
       replace_zfinal.index_columns fixtures.a_row
       replace_zfinal.vice_output map List.length Nat.eqb
       replace_zfinal.sample_loop replace_zfinal.random_random
       fixtures.tape_random hd tl replace_zfinal.age
       replace_zfinal.galr_final fixtures.a_star
       replace_zfinal.vs_age replace_zfinal.vs_zone_final
       replace_zfinal.ZONE_WIDTH fixtures.script_globals
       replace_zfinal.sech_scale_np replace_zfinal.inv_sech_cdf_np
       replace_zfinal.set_zfinal replace_zfinal.zone_origin
       replace_zfinal.time_origin replace_zfinal.analog_id].
  rewrite inv_sech_cdf_open by lra. reflexivity.
Qed.

(** The same pass on the draw [0]. *)
Lemma tape_pass_zero_draw :
  @replace_zfinal.process_file fixtures.tape_random fixtures.script_globals
    (fixtures.one_file [fixtures.a_star]) [0] "a_analogdata.out"
  = (Raise ZeroDivisionError, fixtures.one_file [fixtures.a_star], []).
Proof.
  unfold replace_zfinal.process_file, replace_zfinal.multioutput_to_pandas.
  cbn [fixtures.one_file replace_zfinal.analog_file replace_zfinal.rows
       fixtures.a_row replace_zfinal.vice_output map List.length Nat.eqb
       replace_zfinal.sample_loop replace_zfinal.random_random
       fixtures.tape_random hd tl].
  rewrite inv_sech_cdf_np_zero. reflexivity.
Qed.

Lemma sampled_height_is_spec_formula_witness :
  (0 < 0.5 < 1
   /\ replace_zfinal.inv_sech_cdf 0.5 (replace_zfinal.sech_scale 5 8)
      = Ret (spec.z (spec.h_z 5 8) 0.5))
  /\ exists w' g',
      @replace_zfinal.process_file fixtures.tape_random fixtures.script_globals
        (fixtures.one_file [fixtures.a_star]) [0.5] "a_analogdata.out"
      = (Ret tt, w', g')
      /\ map replace_zfinal.zfinal
           (replace_zfinal.rows
              (replace_zfinal.analog_file w' "a_analogdata.out"))
         = [Some (spec.z (spec.h_z 5 (80 * 0.1)) 0.5)].
Proof.
  split.
  - split; [lra|].
    apply (proj1 (@sampled_height_is_spec_formula
                    fixtures.tape_random fixtures.script_globals)); lra.
  - eexists. eexists. split; [exact tape_pass_run|].
    exact (proj2 (@sampled_height_is_spec_formula
                    fixtures.tape_random fixtures.script_globals)
                 _ _ _ _ _ tape_pass_run).
Defined.

(** C5, as stated, fails: nothing guards the uniform draw.  At [u = 0] the
    quotient [1/u] is a division by zero, at [u = 1] the logarithm is taken at
    0, and a pass of the script whose first draw is 0 ends on the division. *)
Lemma unguarded_draw_counterexample :
  replace_zfinal.inv_sech_cdf 0 1 = Raise ZeroDivisionError
  /\ replace_zfinal.inv_sech_cdf 1 1 = Raise ValueError
  /\ @replace_zfinal.process_file fixtures.tape_random fixtures.script_globals
       (fixtures.one_file [fixtures.a_star]) [0] "a_analogdata.out"
     = (Raise ZeroDivisionError, fixtures.one_file [fixtures.a_star], []).
Proof.
  split; [apply inv_sech_cdf_zero|].
  split; [apply inv_sech_cdf_one|].
  exact tape_pass_zero_draw.
Qed.

Section Unguarded_draw.
Import PrimFloat.
Import replace_zfinal.
Context {RM : random_module} {G : globals}.

(** C5, amended: the sampling path has no guard, resample or clamp on the
    uniform draw.  [inv_sech_cdf] at [u = 0] performs the division and raises
    [ZeroDivisionError], and at [u = 1] takes the logarithm of 0 and raises
    [ValueError]: no value, so no NaN and no infinity, is returned at the
    endpoints, on the real numbers and on doubles alike.  In [main] such a
    draw is not redrawn: the pass over the file ends with that exception as
    soon as the draw is taken, with the files as they were.  A draw strictly
    inside (0, 1) is not guarded either: at the smallest positive double,
    [5e-324], the quotient [1/u] overflows and the value returned is
    [-inf]. *)
Theorem unguarded_draw_ends_the_pass :
  (forall scale : R, inv_sech_cdf 0 scale = Raise ZeroDivisionError)
  /\ (forall scale : R, inv_sech_cdf 1 scale = Raise ValueError)
  /\ (forall (w : world) (g : rng) (filepath : string)
             (row : star_row) (rest : list star_row),
         multioutput_to_pandas w (output_name_of filepath) = row :: rest ->
         List.length (rows (analog_file w filepath)) = S (List.length rest) ->
         (fst (random_random g) = 0 ->
          process_file w g filepath
          = (Raise ZeroDivisionError, w, snd (random_random g)))
         /\ (fst (random_random g) = 1 ->
             process_file w g filepath
             = (Raise ValueError, w, snd (random_random g))))
  /\ (forall (L : doubles.libm) (scale : float),
         doubles.inv_sech_cdf 0%float scale = Raise ZeroDivisionError
         /\ doubles.inv_sech_cdf 1%float scale = Raise ValueError)
  /\ @doubles.inv_sech_cdf fixtures.binary64.cpython_libm
       0x1p-1074%float 1%float
     = Ret neg_infinity.
Proof.
  split; [apply inv_sech_cdf_zero|].
  split; [apply inv_sech_cdf_one|].
  split; [|split; [intros L scale; split; reflexivity|reflexivity]].
  intros w g filepath row rest Hstars Hlen.
  unfold process_file. rewrite Hstars, Hlen.
  cbn [List.length Nat.eqb sample_loop]. rewrite Nat.eqb_refl.
  destruct (random_random g) as [u g1]. cbn [fst snd].
  split; intros ->.
  - now rewrite inv_sech_cdf_np_zero.
  - now rewrite inv_sech_cdf_np_one.
Qed.

End Unguarded_draw.

Lemma unguarded_draw_ends_the_pass_witness :
  @replace_zfinal.multioutput_to_pandas fixtures.script_globals
    (fixtures.one_file [fixtures.a_star]) "a_analogdata.out"
  = [ {| replace_zfinal.age := Some 5;
         replace_zfinal.galr_origin := Some (4 * 0.1);
         replace_zfinal.galr_final := Some (80 * 0.1) |} ]
  /\ fst (@replace_zfinal.random_random fixtures.tape_random [0]) = 0
  /\ @replace_zfinal.process_file fixtures.tape_random fixtures.script_globals
       (fixtures.one_file [fixtures.a_star]) [0] "a_analogdata.out"
     = (Raise ZeroDivisionError, fixtures.one_file [fixtures.a_star], []).
Proof.
  split; [reflexivity|]. split; [reflexivity|].
  exact (proj1 (proj1 (proj2 (proj2 (@unguarded_draw_ends_the_pass
                                       fixtures.tape_random
                                       fixtures.script_globals)))
                  (fixtures.one_file [fixtures.a_star]) [0]
                  "a_analogdata.out"%string _ [] eq_refl eq_refl) eq_refl).
Defined.

Section Row_count_check.
Import replace_zfinal.
Context {RM : random_module} {G : globals}.

(** The loop body writes at most the file it was given, and never a VICE
    output. *)
Lemma process_file_frame (w w' : world) (g g' : rng) (p : string)
    (r : outcome unit) :
  process_file w g p = (r, w', g') ->
  vice_output w' = vice_output w
  /\ forall q, q <> p -> analog_file w' q = analog_file w q.
Proof.
  unfold process_file. intros Hrun.
  destruct (Nat.eqb _ _).
  - destruct (sample_loop _ g) as [[zs|e] g1]; inversion Hrun; subst;
      (split; [reflexivity|]); intros q Hq; [|reflexivity].
    cbn [to_csv analog_file].
    apply String.eqb_neq in Hq. now rewrite Hq.
  - inversion Hrun; subst. now split.
Qed.

Lemma process_files_frame (ps : list string) :
  forall (w w' : world) (g g' : rng) (r : outcome unit),
    process_files w g ps = (r, w', g') ->
    vice_output w' = vice_output w
    /\ forall q, ~ In q ps -> analog_file w' q = analog_file w q.
Proof.
  induction ps as [|p ps IH]; intros w w' g g' r Hrun.
  - cbn in Hrun. inversion Hrun; subst. now split.
  - cbn [process_files] in Hrun.
    destruct (process_file w g p) as [[[[]|e] w1] g1] eqn:Hp.
    + destruct (process_file_frame _ _ _ _ _ _ Hp) as [Hv Hf].
      destruct (IH _ _ _ _ _ Hrun) as [Hv' Hf'].
      split; [congruence|].
      intros q Hq. cbn [In] in Hq.
      rewrite Hf' by tauto. apply Hf. intros ->. tauto.
    + inversion Hrun; subst.
      destruct (process_file_frame _ _ _ _ _ _ Hp) as [Hv Hf].
      split; [exact Hv|].
      intros q Hq. cbn [In] in Hq. apply Hf. intros ->. tauto.
Qed.

Lemma process_files_app (pre : list string) :
  forall (w : world) (g : rng) (rest : list string),
    process_files w g (pre ++ rest)
    = match process_files w g pre with
      | (Ret _, w1, g1) => process_files w1 g1 rest
      | (Raise e, w1, g1) => (Raise e, w1, g1)
      end.
Proof.
  induction pre as [|p pre IH]; intros w g rest.
  - reflexivity.
  - cbn [app process_files].
    destruct (process_file w g p) as [[[[]|e] w1] g1]; [apply IH|reflexivity].
Qed.

(** A file whose row count differs from the row count of the frame of its
    output stops the loop body at the assertion, with the files and the
    generator untouched. *)
Lemma process_file_mismatch (w : world) (g : rng) (p : string) :
  List.length (rows (analog_file w p))
    <> List.length (multioutput_to_pandas w (output_name_of p)) ->
  process_file w g p = (Raise AssertionError, w, g).
Proof.
  intros Hneq. unfold process_file.
  apply Nat.eqb_neq in Hneq. now rewrite Hneq.
Qed.

(** An output with star particles has one frame row per particle. *)
Lemma multioutput_rows_with_stars (w : world) (name : string) :
  vice_output w name <> [] ->
  List.length (multioutput_to_pandas w name)
  = List.length (vice_output w name).
Proof.
  unfold multioutput_to_pandas.
  destruct (vice_output w name) as [|s stars]; [congruence|].
  intros _. now rewrite length_map.
Qed.

(** An output without star particles gets one frame row, of NaN, per row of
    its analog file. *)
Lemma multioutput_rows_without_stars (w : world) (name : string) :
  vice_output w name = [] ->
  multioutput_to_pandas w name
  = map (fun _ => {| age := None; galr_origin := None; galr_final := None |})
        (rows (analog_file w (analogdata_path name))).
Proof. unfold multioutput_to_pandas. now intros ->. Qed.

(** X24: for an output that has star particles the assertion does its work: when
    the analog file has a number of rows different from the number of star
    particles, [main] ends on the failed assertion as soon as its loop
    reaches the file; nothing is sampled and nothing is written for it, so
    the file is as it was before the run. *)
Theorem row_count_mismatch_aborts_before_write
    (w w1 : world) (g g1 : rng) (pre post : list string) (p : string) :
  analog_paths w = pre ++ p :: post ->
  ~ In p pre ->
  process_files w g pre = (Ret tt, w1, g1) ->
  vice_output w (output_name_of p) <> [] ->
  List.length (rows (analog_file w p))
    <> List.length (vice_output w (output_name_of p)) ->
  main w g = (Raise AssertionError, w1, g1)
  /\ process_file w1 g1 p = (Raise AssertionError, w1, g1)
  /\ analog_file w1 p = analog_file w p.
Proof.
  intros Hpaths Hfresh Hpre Hstars Hneq.
  destruct (process_files_frame _ _ _ _ _ _ Hpre) as [Hv Hf].
  assert (Hsame : analog_file w1 p = analog_file w p) by now apply Hf.
  assert (Hbody : process_file w1 g1 p = (Raise AssertionError, w1, g1)).
  { apply process_file_mismatch.
    rewrite multioutput_rows_with_stars by now rewrite Hv.
    now rewrite Hsame, Hv. }
  split; [|now split].
  unfold main. rewrite Hpaths, process_files_app, Hpre.
  cbn [process_files]. now rewrite Hbody.
Qed.

Lemma sample_loop_nan_rows {A : Type} (l : list A) :
  forall g : rng,
    Forall (fun u => 0 < u < 1) (draws (List.length l) g) ->
    sample_loop
      (map (fun _ => {| age := None; galr_origin := None; galr_final := None |})
           l) g
    = (Ret (map (fun _ => None) l), rng_after (List.length l) g).
Proof.
  induction l as [|a l IH]; intros g Hall; [reflexivity|].
  cbn [List.length draws] in Hall.
  cbn [map sample_loop List.length rng_after age galr_final sech_scale_np].
  destruct (random_random g) as [u g1]. cbn [snd].
  inversion Hall as [|? ? Hu Hrest]; subst.
  rewrite inv_sech_cdf_np_open by exact Hu.
  now rewrite (IH g1 Hrest).
Qed.

Lemma set_zfinal_all_nan (t : list analog_row) :
  set_zfinal t (map (fun _ => None) t)
  = map (fun r => {| zone_origin := zone_origin r;
                     time_origin := time_origin r;
                     analog_id := analog_id r; zfinal := None |}) t.
Proof.
  induction t as [|r t IH]; cbn; [reflexivity|]. now rewrite IH.
Qed.

(** An output without star particles is never stopped by the assertion: the
    frame of the output takes its rows from the analog file itself, the two
    counts agree, and the pass overwrites every [zfinal] with NaN. *)
Lemma empty_output_passes_the_assertion (w : world) (g : rng) (p : string) :
  vice_output w (output_name_of p) = [] ->
  analogdata_path (output_name_of p) = p ->
  Forall (fun u => 0 < u < 1) (draws (List.length (rows (analog_file w p))) g) ->
  process_file w g p
  = (Ret tt,
     to_csv w p
       {| index_columns := index_columns (analog_file w p);
          rows := map (fun r => {| zone_origin := zone_origin r;
                                   time_origin := time_origin r;
                                   analog_id := analog_id r;
                                   zfinal := None |})
                      (rows (analog_file w p)) |},
     rng_after (List.length (rows (analog_file w p))) g).
Proof.
  intros Hstars Hpath Hdraws. unfold process_file.
  rewrite (multioutput_rows_without_stars _ _ Hstars), Hpath.
  rewrite length_map, Nat.eqb_refl.
  rewrite sample_loop_nan_rows by exact Hdraws.
  now rewrite set_zfinal_all_nan.
Qed.

End Row_count_check.

(** C9 at an output with no star particles whose analog file has one row:
    the two counts differ, yet [main] does not stop at the assertion; it
    returns, and the [zfinal] of the row has been replaced by NaN and written
    back. *)
Theorem row_count_check_misses_empty_output :
  replace_zfinal.vice_output (fixtures.one_file []) "a_analogdata.out" = []
  /\ List.length
       (replace_zfinal.rows
          (replace_zfinal.analog_file (fixtures.one_file [])
             "a_analogdata.out")) = 1%nat
  /\ @replace_zfinal.main fixtures.tape_random fixtures.script_globals
       (fixtures.one_file []) [0.5]
     = (Ret tt,
        replace_zfinal.to_csv (fixtures.one_file []) "a_analogdata.out"
          {| replace_zfinal.index_columns := 0;
             replace_zfinal.rows :=
               [ {| replace_zfinal.zone_origin := 4;
                    replace_zfinal.time_origin := 0;
                    replace_zfinal.analog_id := 7;
                    replace_zfinal.zfinal := None |} ] |},
        []).
Proof.
  split; [reflexivity|]. split; [reflexivity|].
  unfold replace_zfinal.main.
  cbn [replace_zfinal.analog_paths fixtures.one_file
       replace_zfinal.process_files].
  fold (fixtures.one_file []).
  rewrite (@empty_output_passes_the_assertion
             fixtures.tape_random fixtures.script_globals
             (fixtures.one_file []) [0.5] "a_analogdata.out"%string
             eq_refl eq_refl).
  - reflexivity.
  - cbn. repeat constructor; lra.
Qed.

Lemma row_count_mismatch_aborts_before_write_witness :
  @replace_zfinal.main fixtures.tape_random fixtures.script_globals
    (fixtures.one_file [fixtures.a_star; fixtures.a_star]) [0.5]
  = (Raise AssertionError,
     fixtures.one_file [fixtures.a_star; fixtures.a_star], [0.5]).
Proof.
  refine (proj1 (@row_count_mismatch_aborts_before_write
                   fixtures.tape_random fixtures.script_globals
                   (fixtures.one_file [fixtures.a_star; fixtures.a_star])
                   (fixtures.one_file [fixtures.a_star; fixtures.a_star])
                   [0.5] [0.5] [] [] "a_analogdata.out"%string _ _ _ _ _)).
  - reflexivity.
  - intros [].
  - reflexivity.
  - cbn. discriminate.
  - cbn. discriminate.
Defined.

(** ** The Gaussian migration scheme *)

Section Migr_scale.
Import migration.gaussian_migration.

Lemma float_pow_nonneg (x y : R) : 0 <= x -> float_pow x y = Some (real_pow x y).
Proof.
  intros Hx. unfold float_pow.
  assert (E : float_ltb x 0 = false) by now apply float_ltb_ge.
  now rewrite E.
Qed.

Lemma real_pow_pos (x y : R) : 0 < x -> real_pow x y = Rpower x y.
Proof.
  intros Hx. unfold real_pow.
  assert (E : float_eqb x 0 = false) by (apply float_eqb_neq; lra).
  now rewrite E.
Qed.

Lemma real_pow_zero (y : R) : real_pow 0 y = 0.
Proof. unfold real_pow. now rewrite float_eqb_refl. Qed.

Lemma real_pow_one (y : R) : real_pow 1 y = 1.
Proof.
  rewrite real_pow_pos by lra.
  unfold Rpower. now rewrite ln_1, Rmult_0_r, exp_0.
Qed.

(** C6, amended: for every [age >= 0] and [rform > 0],
    [migr_scale(age, rform)] returns the product
    [1.35 * age^0.33 * (rform / 8)^0.61], taken in that order; as a real
    number, that is with floats read as reals, it is equal to the formula of
    the specification, [1.35 * (rform / 8)^0.61 * age^0.33]. *)
Theorem migr_scale_is_spec_sigma (age rform : R) :
  0 <= age -> 0 < rform ->
  migr_scale age rform
  = Some (1.35 * real_pow age 0.33 * real_pow (rform / 8) 0.61)
  /\ 1.35 * real_pow age 0.33 * real_pow (rform / 8) 0.61
     = spec.sigma age rform.
Proof.
  intros Hage Hr. unfold migr_scale, spec.sigma.
  rewrite (float_pow_nonneg age) by exact Hage.
  rewrite (float_pow_nonneg (rform / 8)) by lra.
  split; [reflexivity|ring].
Qed.

Lemma migr_scale_1_8 : migr_scale 1 8 = Some 1.35.
Proof.
  unfold migr_scale.
  rewrite (float_pow_nonneg 1) by lra.
  rewrite (float_pow_nonneg (8 / 8)) by lra.
  replace (8 / 8) with 1 by lra.
  rewrite !real_pow_one. f_equal. lra.
Qed.

End Migr_scale.

Lemma migr_scale_is_spec_sigma_witness :
  0 <= 1 /\ 0 < 8
  /\ migration.gaussian_migration.migr_scale 1 8
     = Some (1.35 * real_pow 1 0.33 * real_pow (8 / 8) 0.61)
  /\ 1.35 * real_pow 1 0.33 * real_pow (8 / 8) 0.61 = spec.sigma 1 8.
Proof.
  assert (Ha : 0 <= 1) by lra.
  assert (Hr : 0 < 8) by lra.
  split; [exact Ha|]. split; [exact Hr|].
  exact (migr_scale_is_spec_sigma 1 8 Ha Hr).
Defined.

Section Factor_order.
Import PrimFloat.

(** C6, as stated, fails: on doubles the order of the factors matters.  At
    [age = 2] and [rform = 3] the code returns [0.9328949462268227] and the
    formula in the order of the specification gives [0.9328949462268226]. *)
Lemma migr_scale_factor_order_counterexample :
  @doubles.migr_scale fixtures.binary64.cpython_libm 2%float 3%float
  = 0x1.dda468094bb73p-1%float
  /\ @doubles.spec_sigma fixtures.binary64.cpython_libm 2%float 3%float
     = 0x1.dda468094bb72p-1%float
  /\ @doubles.migr_scale fixtures.binary64.cpython_libm 2%float 3%float
     <> @doubles.spec_sigma fixtures.binary64.cpython_libm
          2%float 3%float.
Proof.
  split; [reflexivity|]. split; [reflexivity|].
  intros Heq.
  apply (f_equal (fun x => eqb x 0x1.dda468094bb73p-1%float)) in Heq.
  vm_compute in Heq. discriminate.
Qed.

End Factor_order.

Section Formation_loop.
Import migration.gaussian_migration.
Context {G : globals}.

Lemma draw_at_succ (n : nat) (age : R) (g : rng) :
  draw_at (S n) age g
  = draw_at n age (snd (sample_gaussian g 0 (migr_scale age rform))).
Proof. reflexivity. Qed.

(** A loop that ends returns the first accepted draw: every earlier draw was
    rejected, and one draw was consumed per iteration. *)
Lemma resample_loop_some (fuel : nat) :
  forall (Rform age : R) (g g' : rng) (d : R),
    resample_loop fuel Rform age g = Some (d, g') ->
    exists k : nat,
      (k < fuel)%nat
      /\ d = draw_at k age g
      /\ g' = rng_after (S k) age g
      /\ 0 < Rform + d
      /\ forall j : nat, (j < k)%nat -> Rform + draw_at j age g <= 0.
Proof.
  induction fuel as [|fuel IH]; intros Rform age g g' d Hloop.
  - discriminate.
  - cbn [resample_loop] in Hloop.
    destruct (sample_gaussian g 0 (migr_scale age rform)) as [d0 g0] eqn:Hdraw.
    destruct (float_ltb 0 (Rform + d0)) eqn:Hacc.
    + inversion Hloop; subst. exists O.
      apply float_ltb_lt in Hacc.
      unfold draw_at. cbn [rng_after]. rewrite Hdraw. cbn [fst snd].
      split; [lia|]. split; [reflexivity|]. split; [reflexivity|].
      split; [assumption|]. intros j Hj. lia.
    + destruct (IH _ _ _ _ _ Hloop) as (k & Hk & Hd & Hg & Hpos & Hrej).
      exists (S k). rewrite draw_at_succ. cbn [rng_after] in *.
      rewrite Hdraw. cbn [snd] in *.
      split; [lia|]. split; [assumption|]. split; [assumption|].
      split; [assumption|]. intros [|j] Hj.
      * unfold draw_at. cbn [rng_after]. rewrite Hdraw. cbn [fst].
        now apply float_ltb_ge.
      * rewrite draw_at_succ, Hdraw. cbn [snd]. apply Hrej. lia.
Qed.

(** The loop ends as soon as some draw is accepted and the fuel reaches it. *)
Lemma resample_loop_complete (k : nat) :
  forall (fuel : nat) (Rform age : R) (g : rng),
    (k < fuel)%nat ->
    0 < Rform + draw_at k age g ->
    exists d g', resample_loop fuel Rform age g = Some (d, g') /\ 0 < Rform + d.
Proof.
  induction k as [|k IH]; intros fuel Rform age g Hfuel Hacc;
    (destruct fuel as [|fuel]; [lia|]); cbn [resample_loop].
  - unfold draw_at in Hacc. cbn [rng_after] in Hacc.
    destruct (sample_gaussian g 0 (migr_scale age rform)) as [d0 g0].
    cbn [fst] in Hacc.
    assert (E : float_ltb 0 (Rform + d0) = true) by now apply float_ltb_lt.
    rewrite E. now exists d0, g0.
  - rewrite draw_at_succ in Hacc.
    destruct (sample_gaussian g 0 (migr_scale age rform)) as [d0 g0].
    cbn [snd] in Hacc.
    destruct (float_ltb 0 (Rform + d0)) eqn:E.
    + apply float_ltb_lt in E. now exists d0, g0.
    + apply IH; [lia|assumption].
Qed.

(** A formation call that completes returns no value. *)
Lemma formation_call_returns_None (fuel : nat) (self self' : instance)
    (g g' : rng) (zone : Z) (t : R) (r : outcome pyval) :
  __call__ fuel self g zone t t = Some (r, self', g') -> r = Ret PyNone.
Proof.
  unfold __call__. rewrite float_eqb_refl.
  destruct (resample_loop _ _ _ _) as [[d g0]|]; [|discriminate].
  congruence.
Qed.

(** C2: when a formation call completes, the stored [dR] makes
    [Rform + dR > 0]; it is a draw of [sample_gaussian] itself, the first one
    accepted: every earlier iteration drew a value with [Rform + dR <= 0],
    dropped it, and drew again from the advanced generator. *)
Theorem formation_call_stores_positive_radius
    (fuel : nat) (self self' : instance) (g g' : rng) (zone : Z) (t : R)
    (r : outcome pyval) :
  __call__ fuel self g zone t t = Some (r, self', g') ->
  let Rform := zone_width self * (IZR zone + 0.5) in
  let age := END_TIME - t in
  exists (d : R) (k : nat),
    dR self' = Some d
    /\ 0 < Rform + d
    /\ (k < fuel)%nat
    /\ d = draw_at k age g
    /\ g' = rng_after (S k) age g
    /\ forall j : nat, (j < k)%nat -> Rform + draw_at j age g <= 0.
Proof.
  unfold __call__. rewrite float_eqb_refl.
  destruct (resample_loop _ _ _ _) as [[d g0]|] eqn:Hloop; [|discriminate].
  intros Hcall. inversion Hcall; subst. clear Hcall.
  destruct (resample_loop_some _ _ _ _ _ _ Hloop)
    as (k & Hk & Hd & Hg & Hpos & Hrej).
  exists d, k. cbn [dR].
  split; [reflexivity|]. split; [assumption|]. split; [assumption|].
  split; [assumption|]. split; assumption.
Qed.

End Formation_loop.

(** The formation call of zone 4 at [tform = time = 12.2], on draws [-10]
    and [1]: the first draw is rejected, the second is stored, and nothing is
    returned. *)
Lemma tape_formation_call :
  @migration.gaussian_migration.__call__ fixtures.tape_gaussian 2
    (@migration.gaussian_migration.__init__ fixtures.tape_gaussian None)
    [-10; 1] 4 12.2 12.2
  = Some (Ret PyNone,
          {| migration.gaussian_migration.zone_width := 0.1;
             migration.gaussian_migration.dR := Some (0 + 1.35 * 1) |},
          []).
Proof.
  unfold migration.gaussian_migration.__call__.
  rewrite float_eqb_refl.
  cbn [migration.gaussian_migration.__init__
       migration.gaussian_migration.zone_width
       migration.gaussian_migration.ZONE_WIDTH
       migration.gaussian_migration.END_TIME
       migration.gaussian_migration.resample_loop
       migration.gaussian_migration.sample_gaussian
       migration.gaussian_migration.rform
       fixtures.tape_gaussian hd tl].
  replace (13.2 - 12.2) with 1 by lra.
  rewrite migr_scale_1_8.
  assert (E1 : float_ltb 0 (0.1 * (4 + 0.5) + (0 + 1.35 * -10)) = false)
    by (apply float_ltb_ge; lra).
  assert (E2 : float_ltb 0 (0.1 * (4 + 0.5) + (0 + 1.35 * 1)) = true)
    by (apply float_ltb_lt; lra).
  rewrite E1, E2. reflexivity.
Qed.

Lemma formation_call_stores_positive_radius_witness :
  @migration.gaussian_migration.__call__ fixtures.tape_gaussian 2
    (@migration.gaussian_migration.__init__ fixtures.tape_gaussian None)
    [-10; 1] 4 12.2 12.2
  = Some (Ret PyNone,
          {| migration.gaussian_migration.zone_width := 0.1;
             migration.gaussian_migration.dR := Some (0 + 1.35 * 1) |},
          [])
  /\ exists (d : R) (k : nat),
    Some (0 + 1.35 * 1) = Some d
    /\ 0 < 0.1 * (4 + 0.5) + d
    /\ (k < 2)%nat
    /\ d = @migration.gaussian_migration.draw_at fixtures.tape_gaussian
             k (13.2 - 12.2) [-10; 1]
    /\ [] = @migration.gaussian_migration.rng_after fixtures.tape_gaussian
              (S k) (13.2 - 12.2) [-10; 1]
    /\ forall j : nat, (j < k)%nat ->
         0.1 * (4 + 0.5)
         + @migration.gaussian_migration.draw_at fixtures.tape_gaussian
             j (13.2 - 12.2) [-10; 1] <= 0.
Proof.
  split; [exact tape_formation_call|].
  exact (@formation_call_stores_positive_radius fixtures.tape_gaussian
           _ _ _ _ _ _ _ _ tape_formation_call).
Defined.

(** C1 at the formation call of zone 4: [gaussian_migration.__call__] ends
    without a [return], so the caller receives [None] and not the zone. *)
Theorem gaussian_formation_call_returns_None_not_zone :
  exists self' g',
    @migration.gaussian_migration.__call__ fixtures.tape_gaussian 2
      (@migration.gaussian_migration.__init__ fixtures.tape_gaussian None)
      [-10; 1] 4 12.2 12.2
    = Some (Ret PyNone, self', g')
    /\ Ret PyNone <> Ret (PyInt 4).
Proof.
  eexists. eexists. split; [exact tape_formation_call|discriminate].
Qed.

(** ** The [diskmigration] callback and its output file *)

Section Disk_migration.
Import migration migration.diskmigration.
Context {H : hydrodiskstars} {F : format_module}.

(** The tab and the newline of the format string, as one-character strings. *)
Local Notation TAB := (String "009"%char EmptyString).
Local Notation NL := (String "010"%char EmptyString).

(** The header the code writes is the header of the specification behind a
    comment mark. *)
Lemma header_is_commented_spec_header :
  header = String "#" (String " " spec.header).
Proof. reflexivity. Qed.

Lemma file_write_open (f : file) (s : string) :
  f_closed f = false ->
  file_write f s
  = Ret {| f_name := f_name f; f_closed := false; f_data := f_data f ++ s |}.
Proof. intros Hopen. unfold file_write. now rewrite Hopen. Qed.

(** A call outside formation is the call of the base class, and nothing
    else. *)
Lemma call_not_formation (self : instance) (zone : Z) (tform time : R) :
  tform <> time ->
  __call__ self zone tform time
  = (Ret (fst (super_call (base self) zone tform time)),
     {| base := snd (super_call (base self) zone tform time);
        _file := _file self; _write := _write self |}).
Proof.
  intros Hneq. unfold __call__.
  apply float_eqb_neq in Hneq. rewrite Hneq.
  now destruct (super_call (base self) zone tform time).
Qed.

(** A formation call with writing disabled resets the analog and returns the
    zone. *)
Lemma call_formation_no_write (self : instance) (zone : Z) (t : R) :
  _write self = false ->
  __call__ self zone t t
  = (Ret zone,
     {| base := snd (super_call (base self) zone t t);
        _file := _file self; _write := false |}).
Proof.
  intros Hw. unfold __call__. rewrite float_eqb_refl.
  destruct (super_call (base self) zone t t) as [z b].
  cbn [_write snd]. now rewrite Hw.
Qed.

(** A formation call with writing enabled on an open file appends the line of
    the current analog and returns the zone. *)
Lemma call_formation_write (self : instance) (zone : Z) (t finalz : R)
    (analog_id : Z) :
  _write self = true ->
  f_closed (_file self) = false ->
  analog_fields (snd (super_call (base self) zone t t))
    = Ret (finalz, analog_id) ->
  __call__ self zone t t
  = (Ret zone,
     {| base := snd (super_call (base self) zone t t);
        _file := {| f_name := f_name (_file self);
                    f_closed := false;
                    f_data := f_data (_file self)
                              ++ data_line zone t analog_id finalz |};
        _write := true |}).
Proof.
  intros Hw Hopen Hfields. unfold __call__. rewrite float_eqb_refl.
  destruct (super_call (base self) zone t t) as [z b].
  cbn [_write _file snd] in *. rewrite Hw, Hfields.
  now rewrite file_write_open by exact Hopen.
Qed.

(** Whenever a formation call returns, it returns the zone it was given. *)
Lemma diskmigration_formation_returns_zone (self self' : instance)
    (zone v : Z) (t : R) :
  __call__ self zone t t = (Ret v, self') -> v = zone.
Proof.
  unfold __call__. rewrite float_eqb_refl.
  destruct (super_call (base self) zone t t) as [z b].
  cbn [_write _file].
  destruct (_write self).
  - destruct (analog_fields b) as [[finalz analog_id]|e]; [|discriminate].
    destruct (file_write _ _); [|discriminate]. congruence.
  - congruence.
Qed.

(** C10: a call with [tform <> time] returns what the base class returns for
    the same arguments, and leaves the file object (name, open or closed,
    contents) and the [write] flag as they were, whatever the flag is: only
    the state of the base class is passed on. *)
Theorem non_formation_call_only_delegates
    (self : instance) (zone : Z) (tform time : R) :
  tform <> time ->
  exists (z : Z) (b : hydro),
    super_call (base self) zone tform time = (z, b)
    /\ __call__ self zone tform time
       = (Ret z, {| base := b; _file := _file self; _write := _write self |})
    /\ _file (snd (__call__ self zone tform time)) = _file self
    /\ _write (snd (__call__ self zone tform time)) = _write self.
Proof.
  intros Hneq. rewrite (call_not_formation _ _ _ _ Hneq).
  destruct (super_call (base self) zone tform time) as [z b].
  exists z, b. cbn [fst snd _file _write]. repeat split.
Qed.

(** C8: every formation call with writing enabled goes one of these ways.
    When no analog was found ([analog_index == -1]) nothing is looked up and
    the line written is [zone], [tform], the id [-1] and the height [0], in
    the format ["%d\t%.2f\t%d\t%.2f\n"], and the call returns the zone: the
    missing analog is not an error.  Otherwise the line carries the [id] and
    [zfinal] entries of [analog_data] at [analog_index] (an index outside the
    table raises [IndexError] and nothing is written).  The only other way
    not to write is a file the driver has closed, on which [write] raises
    [ValueError]. *)
Theorem formation_record_fields (self : instance) (zone : Z) (t : R) :
  _write self = true ->
  let b := snd (super_call (base self) zone t t) in
  let record (analog_id : string) (finalz : R) : string :=
    (format_d zone ++ TAB ++ format_2f t ++ TAB
     ++ analog_id ++ TAB ++ format_2f finalz ++ NL)%string in
  let written (line : string) : outcome Z * instance :=
    if f_closed (_file self)
    then (Raise ValueError,
          {| base := b; _file := _file self; _write := true |})
    else (Ret zone,
          {| base := b;
             _file := {| f_name := f_name (_file self);
                         f_closed := false;
                         f_data := (f_data (_file self) ++ line)%string |};
             _write := true |}) in
  (analog_index b = (-1)%Z ->
   __call__ self zone t t = written (record "-1"%string 0))
  /\ (analog_index b <> (-1)%Z ->
      match py_index (analog_data_zfinal b) (analog_index b),
            py_index (analog_data_id b) (analog_index b) with
      | Ret finalz, Ret analog_id =>
          __call__ self zone t t = written (record (format_d analog_id) finalz)
      | _, _ =>
          __call__ self zone t t
          = (Raise IndexError,
             {| base := b; _file := _file self; _write := true |})
      end).
Proof.
  intros Hw b record written. subst record written.
  assert (Hcall : forall finalz analog_id,
             analog_fields b = Ret (finalz, analog_id) ->
             __call__ self zone t t
             = (if f_closed (_file self)
                then (Raise ValueError,
                      {| base := b; _file := _file self; _write := true |})
                else (Ret zone,
                      {| base := b;
                         _file := {| f_name := f_name (_file self);
                                     f_closed := false;
                                     f_data := f_data (_file self)
                                               ++ data_line zone t analog_id
                                                    finalz |};
                         _write := true |}))).
  { intros finalz analog_id Hfields. subst b.
    unfold __call__. rewrite float_eqb_refl.
    destruct (super_call (base self) zone t t) as [z b].
    cbn [_write _file snd] in *. rewrite Hw, Hfields.
    unfold file_write. now destruct (f_closed (_file self)). }
  assert (Hraise : forall e,
             analog_fields b = Raise e ->
             __call__ self zone t t
             = (Raise e, {| base := b; _file := _file self; _write := true |})).
  { intros e Hfields. subst b.
    unfold __call__. rewrite float_eqb_refl.
    destruct (super_call (base self) zone t t) as [z b].
    cbn [_write _file snd] in *. now rewrite Hw, Hfields. }
  split.
  - intros Hidx.
    assert (Hfields : analog_fields b = Ret (0, (-1)%Z))
      by (unfold analog_fields; now rewrite Hidx).
    rewrite (Hcall _ _ Hfields). reflexivity.
  - intros Hidx. apply Z.eqb_neq in Hidx.
    destruct (py_index (analog_data_zfinal b) (analog_index b))
      as [finalz|e1] eqn:Hz.
    + destruct (py_index (analog_data_id b) (analog_index b))
        as [analog_id|e2] eqn:Hid.
      * assert (Hfields : analog_fields b = Ret (finalz, analog_id))
          by (unfold analog_fields; now rewrite Hidx, Hz, Hid).
        rewrite (Hcall _ _ Hfields). reflexivity.
      * assert (He : e2 = IndexError).
        { revert Hid. unfold py_index.
          destruct (_ && _)%bool; [destruct (nth_error _ _)|]; congruence. }
        subst e2. apply Hraise.
        unfold analog_fields. now rewrite Hidx, Hz, Hid.
    + assert (He : e1 = IndexError).
      { revert Hz. unfold py_index.
        destruct (_ && _)%bool; [destruct (nth_error _ _)|]; congruence. }
      subst e1. apply Hraise.
      unfold analog_fields. now rewrite Hidx, Hz.
Qed.

(** C7: a filename that is not a string makes the constructor raise
    [TypeError] with no file opened and no object built; a value that is not
    a boolean makes the setter of [write] raise [TypeError] with the object,
    and so the stored flag, as it was; a string filename builds the object
    and a boolean is stored as it is. *)
Theorem configuration_type_errors :
  (forall (opened : list string) (radbins : list R) (mode filename : pyval)
          (kwargs : list (string * pyval)),
      (forall name, filename <> PyStr name) ->
      __init__ opened radbins mode filename kwargs = (Raise TypeError, opened))
  /\ (forall (self : instance) (value : pyval),
         (forall v, value <> PyBool v) ->
         set_write self value = (Raise TypeError, self))
  /\ (forall (opened : list string) (radbins : list R) (mode : pyval)
             (name : string) (kwargs : list (string * pyval)),
         exists self : instance,
           __init__ opened radbins mode (PyStr name) kwargs
           = (Ret self, name :: opened)
           /\ f_name (_file self) = name
           /\ _write self = false)
  /\ (forall (self : instance) (v : bool),
         set_write self (PyBool v)
         = (Ret tt, {| base := base self; _file := _file self; _write := v |})).
Proof.
  split; [|split; [|split]].
  - intros opened radbins mode filename kwargs Hns.
    unfold __init__. destruct filename; try reflexivity.
    now destruct (Hns s).
  - intros self value Hnb.
    unfold set_write. destruct value; try reflexivity.
    now destruct (Hnb b).
  - intros opened radbins mode name kwargs.
    unfold __init__, file_write, open_w. cbn [f_closed f_name f_data].
    eexists. split; [reflexivity|]. now split.
  - reflexivity.
Qed.

(** C4, amended: the constructor writes the header line
    ["# zone_origin\ttime_origin\tanalog_id\tzfinal\n"] (the header of the
    specification behind ["# "]) as the first and only content of the file
    it opens; every formation call with writing enabled on the open file
    appends exactly one line ["%d\t%.2f\t%d\t%.2f\n"] of (zone, tform,
    analog_id, finalz); every other call, the setter of [write] and
    [close_file] leave the contents as they are. *)
Theorem output_stream_contents :
  (forall (opened : list string) (radbins : list R) (mode : pyval)
          (name : string) (kwargs : list (string * pyval)),
      exists self : instance,
        __init__ opened radbins mode (PyStr name) kwargs
        = (Ret self, name :: opened)
        /\ f_data (_file self) = String "#" (String " " spec.header)
        /\ f_closed (_file self) = false)
  /\ (forall (self : instance) (zone : Z) (t finalz : R) (analog_id : Z),
         _write self = true ->
         f_closed (_file self) = false ->
         analog_fields (snd (super_call (base self) zone t t))
           = Ret (finalz, analog_id) ->
         exists self' : instance,
           __call__ self zone t t = (Ret zone, self')
           /\ f_data (_file self')
              = (f_data (_file self)
                 ++ (format_d zone ++ TAB ++ format_2f t ++ TAB
                     ++ format_d analog_id ++ TAB ++ format_2f finalz
                     ++ NL))%string)
  /\ (forall (self : instance) (zone : Z) (tform time : R),
         tform <> time \/ _write self = false ->
         f_data (_file (snd (__call__ self zone tform time)))
         = f_data (_file self))
  /\ (forall (self : instance) (value : pyval),
         f_data (_file (snd (set_write self value))) = f_data (_file self))
  /\ (forall self : instance,
         f_data (_file (close_file self)) = f_data (_file self)).
Proof.
  split; [|split; [|split; [|split]]].
  - intros opened radbins mode name kwargs.
    unfold __init__, file_write, open_w. cbn [f_closed f_name f_data].
    eexists. split; [reflexivity|]. now split.
  - intros self zone t finalz analog_id Hw Hopen Hfields.
    eexists.
    split; [exact (call_formation_write _ _ _ _ _ Hw Hopen Hfields)|].
    reflexivity.
  - intros self zone tform time Hcase.
    destruct (Req_dec_T tform time) as [->|Hneq].
    + destruct Hcase as [Hneq|Hw]; [now destruct Hneq|].
      now rewrite call_formation_no_write.
    + now rewrite call_not_formation.
  - intros self value. now destruct value.
  - reflexivity.
Qed.

End Disk_migration.

Section Disk_migration_examples.
Import migration migration.diskmigration.
#[local] Existing Instance fixtures.toy_hydro.
#[local] Existing Instance fixtures.toy_format.

Lemma non_formation_call_only_delegates_witness :
  0 <> 1
  /\ exists (z : Z) (b : hydro),
      super_call (base (fixtures.toy_disk true)) 4 0 1 = (z, b)
      /\ __call__ (fixtures.toy_disk true) 4 0 1
         = (Ret z, {| base := b; _file := _file (fixtures.toy_disk true);
                      _write := _write (fixtures.toy_disk true) |})
      /\ _file (snd (__call__ (fixtures.toy_disk true) 4 0 1))
         = _file (fixtures.toy_disk true)
      /\ _write (snd (__call__ (fixtures.toy_disk true) 4 0 1))
         = _write (fixtures.toy_disk true).
Proof.
  assert (Hneq : 0 <> 1) by lra.
  split; [exact Hneq|].
  exact (non_formation_call_only_delegates (fixtures.toy_disk true) 4 0 1 Hneq).
Defined.

Lemma formation_record_fields_witness :
  _write (fixtures.toy_disk true) = true
  /\ __call__ (fixtures.toy_disk true) 4 0 0
     = (Ret 4%Z,
        {| base := (-1)%Z;
           _file := {| f_name := "stars.out"; f_closed := false;
                       f_data := header
                                 ++ ("4" ++ String "009"%char "0.00"
                                     ++ String "009"%char "-1"
                                     ++ String "009"%char "0.00"
                                     ++ String "010"%char "") |};
           _write := true |})
  /\ __call__ (fixtures.toy_disk true) 1 0 0
     = (Ret 1%Z,
        {| base := 1%Z;
           _file := {| f_name := "stars.out"; f_closed := false;
                       f_data := header
                                 ++ ("1" ++ String "009"%char "0.00"
                                     ++ String "009"%char "23"
                                     ++ String "009"%char "x.xx"
                                     ++ String "010"%char "") |};
           _write := true |}).
Proof.
  assert (Hhalf : float_eqb (-0.5) 0 = false) by (apply float_eqb_neq; lra).
  split; [reflexivity|]. split.
  - rewrite (proj1 (formation_record_fields (fixtures.toy_disk true) 4 0
                      eq_refl) eq_refl).
    cbn -[float_eqb]. rewrite float_eqb_refl. reflexivity.
  - assert (Hidx : analog_index
                     (snd (super_call (base (fixtures.toy_disk true)) 1 0 0))
                   <> (-1)%Z) by (cbn; discriminate).
    pose proof (proj2 (formation_record_fields (fixtures.toy_disk true) 1 0
                         eq_refl) Hidx) as Hcall.
    cbn -[float_eqb __call__] in Hcall. rewrite Hcall.
    rewrite float_eqb_refl, Hhalf. reflexivity.
Defined.

Lemma configuration_type_errors_witness :
  (forall name, PyInt 3 <> PyStr name)
  /\ __init__ [] [0; 0.1] (PyStr "diffusion") (PyInt 3) [] = (Raise TypeError, [])
  /\ (forall v, PyInt 1 <> PyBool v)
  /\ set_write (fixtures.toy_disk false) (PyInt 1)
     = (Raise TypeError, fixtures.toy_disk false).
Proof.
  assert (Hns : forall name, PyInt 3 <> PyStr name) by discriminate.
  assert (Hnb : forall v, PyInt 1 <> PyBool v) by discriminate.
  split; [exact Hns|].
  split; [exact (proj1 configuration_type_errors _ _ _ _ _ Hns)|].
  split; [exact Hnb|].
  exact (proj1 (proj2 configuration_type_errors) _ _ Hnb).
Defined.

(** C4, as stated, fails: the first line of the file the constructor opens is
    not the header of the specification; it starts with ["# "]. *)
Lemma header_line_counterexample :
  exists self : instance,
    __init__ [] [0; 0.1] (PyStr "diffusion") (PyStr "stars.out") []
    = (Ret self, ["stars.out"%string])
    /\ f_data (_file self) <> spec.header
    /\ String.prefix spec.header (f_data (_file self)) = false.
Proof.
  eexists. split; [reflexivity|]. split.
  - cbn. discriminate.
  - reflexivity.
Qed.

Lemma output_stream_contents_witness :
  (_write (fixtures.toy_disk true) = true
   /\ f_closed (_file (fixtures.toy_disk true)) = false
   /\ analog_fields (snd (super_call (base (fixtures.toy_disk true)) 4 0 0))
      = Ret (0, (-1)%Z)
   /\ exists self' : instance,
       __call__ (fixtures.toy_disk true) 4 0 0 = (Ret 4%Z, self')
       /\ f_data (_file self')
          = (f_data (_file (fixtures.toy_disk true))
             ++ ("4" ++ String "009"%char (format_2f 0)
                 ++ String "009"%char "-1"
                 ++ String "009"%char (format_2f 0)
                 ++ String "010"%char ""))%string)
  /\ ((0 <> 0 \/ _write (fixtures.toy_disk false) = false)
      /\ f_data (_file (snd (__call__ (fixtures.toy_disk false) 4 0 0)))
         = f_data (_file (fixtures.toy_disk false))).
Proof.
  split.
  - assert (Hf : analog_fields
                   (snd (super_call (base (fixtures.toy_disk true)) 4 0 0))
                 = Ret (0, (-1)%Z)) by reflexivity.
    split; [reflexivity|]. split; [reflexivity|]. split; [exact Hf|].
    exact (proj1 (proj2 output_stream_contents)
             (fixtures.toy_disk true) 4%Z 0 0 (-1)%Z eq_refl eq_refl Hf).
  - assert (Hc : 0 <> 0 \/ _write (fixtures.toy_disk false) = false)
      by (right; reflexivity).
    split; [exact Hc|].
    exact (proj1 (proj2 (proj2 output_stream_contents))
             (fixtures.toy_disk false) 4%Z 0 0 Hc).
Defined.

End Disk_migration_examples.

(** ** The vertical profile: density, distribution function and its inverse *)

Section Sech_profile.
Import replace_zfinal.

Lemma sech_cdf_nonzero (z scale : R) :
  scale <> 0 -> sech_cdf z scale = Ret (1 / (1 + exp (- z / scale))).
Proof.
  intros Hs. unfold sech_cdf. now rewrite float_div_nonzero.
Qed.

Lemma sech_dist_nonzero (z scale : R) :
  scale <> 0 ->
  sech_dist z scale
  = Ret (1 / (4 * scale) * powerRZ (cosh (z / (2 * scale))) (-2)).
Proof.
  intros Hs. unfold sech_dist.
  rewrite !float_div_nonzero by lra. reflexivity.
Qed.

(** The value of the distribution function lies strictly between 0 and 1. *)
Lemma logistic_range (q : R) : 0 < 1 / (1 + exp q) < 1.
Proof.
  pose proof (exp_pos q) as He.
  split.
  - apply Rdiv_lt_0_compat; lra.
  - apply (Rmult_lt_reg_r (1 + exp q)); [lra|].
    unfold Rdiv. rewrite Rmult_assoc, Rinv_l by lra. lra.
Qed.

(** X1: with floats read as real numbers, [sech_cdf] undoes [inv_sech_cdf]:
    for a draw [u] strictly between 0 and 1 and a non-zero scale, the height
    sampled at [u] has cumulative probability [u].  (On doubles the round
    trip holds up to rounding only.) *)
Theorem sech_cdf_inv_sech_cdf (u scale : R) :
  0 < u < 1 -> scale <> 0 ->
  exists z : R, inv_sech_cdf u scale = Ret z /\ sech_cdf z scale = Ret u.
Proof.
  intros Hu Hs. exists (- scale * ln (1 / u - 1)).
  split; [now apply inv_sech_cdf_open|].
  rewrite sech_cdf_nonzero by exact Hs.
  replace (- (- scale * ln (1 / u - 1)) / scale) with (ln (1 / u - 1))
    by (field; exact Hs).
  rewrite exp_ln by now apply inv_minus_one_pos.
  f_equal. field. lra.
Qed.

(** X2: with floats read as real numbers, [inv_sech_cdf] undoes [sech_cdf]:
    for a non-zero scale, the cumulative probability of any height [z] lies
    strictly between 0 and 1, and sampling at it gives back [z].  (On doubles
    [sech_cdf] saturates to 0.0 or 1.0 far from the midplane.) *)
Theorem inv_sech_cdf_sech_cdf (z scale : R) :
  scale <> 0 ->
  exists c : R,
    sech_cdf z scale = Ret c /\ 0 < c < 1 /\ inv_sech_cdf c scale = Ret z.
Proof.
  intros Hs. exists (1 / (1 + exp (- z / scale))).
  pose proof (logistic_range (- z / scale)) as Hc.
  pose proof (exp_pos (- z / scale)) as He.
  split; [now apply sech_cdf_nonzero|]. split; [exact Hc|].
  rewrite inv_sech_cdf_open by exact Hc.
  replace (1 / (1 / (1 + exp (- z / scale))) - 1) with (exp (- z / scale))
    by (field; lra).
  rewrite ln_exp. f_equal. field. exact Hs.
Qed.

(** X3: with floats read as real numbers, for a positive scale [sech_cdf] is
    strictly increasing in [z].  (On doubles it is constant where it
    saturates.) *)
Theorem sech_cdf_increasing (z1 z2 scale c1 c2 : R) :
  0 < scale -> z1 < z2 ->
  sech_cdf z1 scale = Ret c1 -> sech_cdf z2 scale = Ret c2 ->
  c1 < c2.
Proof.
  intros Hs Hz H1 H2.
  rewrite sech_cdf_nonzero in H1, H2 by lra.
  inversion H1; inversion H2; subst. clear H1 H2.
  assert (Hq : - z2 / scale < - z1 / scale).
  { unfold Rdiv. apply Rmult_lt_compat_r; [now apply Rinv_0_lt_compat|lra]. }
  apply exp_increasing in Hq.
  pose proof (exp_pos (- z2 / scale)) as He2.
  unfold Rdiv. rewrite !Rmult_1_l.
  apply Rinv_lt_contravar; [|lra].
  apply Rmult_lt_0_compat; lra.
Qed.

(** X4: with floats read as real numbers, the profile is symmetric about the
    midplane (on doubles, up to rounding): for a non-zero scale,
    [sech_cdf(-z) = 1 - sech_cdf(z)] and [sech_dist(-z) = sech_dist(z)], and
    for a draw strictly between 0 and 1,
    [inv_sech_cdf(1 - u) = - inv_sech_cdf(u)]. *)
Theorem sech_profile_symmetric (z u scale : R) :
  scale <> 0 -> 0 < u < 1 ->
  (exists c : R,
      sech_cdf z scale = Ret c /\ sech_cdf (- z) scale = Ret (1 - c))
  /\ sech_dist (- z) scale = sech_dist z scale
  /\ (exists h : R,
         inv_sech_cdf u scale = Ret h
         /\ inv_sech_cdf (1 - u) scale = Ret (- h)).
Proof.
  intros Hs Hu. split; [|split].
  - eexists. split; [now apply sech_cdf_nonzero|].
    rewrite sech_cdf_nonzero by exact Hs. f_equal.
    replace (- - z / scale) with (- (- z / scale)) by (field; exact Hs).
    rewrite exp_Ropp.
    pose proof (exp_pos (- z / scale)) as He.
    field. split; lra.
  - rewrite !sech_dist_nonzero by exact Hs. do 2 f_equal.
    replace (- z / (2 * scale)) with (- (z / (2 * scale)))
      by (field; exact Hs).
    unfold cosh. rewrite Ropp_involutive. f_equal. lra.
  - eexists. split; [now apply inv_sech_cdf_open|].
    rewrite inv_sech_cdf_open by lra. f_equal.
    replace (1 / (1 - u) - 1) with (/ (1 / u - 1)) by (field; lra).
    rewrite ln_Rinv by now apply inv_minus_one_pos.
    ring.
Qed.

(** The derivative of the logistic curve, in the form [sech_dist] has. *)
Lemma logistic_derivative (scale z : R) :
  scale <> 0 ->
  derivable_pt_lim (fun y => 1 / (1 + exp (- y / scale))) z
    (1 / (4 * scale) * powerRZ (cosh (z / (2 * scale))) (-2)).
Proof.
  intros Hs.
  pose proof (exp_pos (- z / scale)) as He.
  assert (Hinner : derivable_pt_lim (fun y => - y / scale) z (- 1 / scale)).
  { apply derivable_pt_lim_div_scal.
    apply (derivable_pt_lim_opp id). apply derivable_pt_lim_id. }
  assert (Hexp : derivable_pt_lim (fun y => exp (- y / scale)) z
                   (exp (- z / scale) * (- 1 / scale))).
  { apply (derivable_pt_lim_comp (fun y => - y / scale) exp);
      [exact Hinner|apply derivable_pt_lim_exp]. }
  assert (Hden : derivable_pt_lim (fun y => 1 + exp (- y / scale)) z
                   (0 + exp (- z / scale) * (- 1 / scale))).
  { apply (derivable_pt_lim_plus (fct_cte 1) (fun y => exp (- y / scale)));
      [apply derivable_pt_lim_const|exact Hexp]. }
  assert (Hquot := derivable_pt_lim_div (fct_cte 1)
                     (fun y => 1 + exp (- y / scale)) z _ _
                     (derivable_pt_lim_const 1 z) Hden).
  cbv beta in Hquot.
  assert (Hnz : 1 + exp (- z / scale) <> 0) by lra.
  specialize (Hquot Hnz).
  unfold div_fct, fct_cte in Hquot.
  replace (1 / (4 * scale) * powerRZ (cosh (z / (2 * scale))) (-2))
    with ((0 * (1 + exp (- z / scale))
           - (0 + exp (- z / scale) * (- 1 / scale)) * 1)
          / Rsqr (1 + exp (- z / scale))); [exact Hquot|].
  set (a := exp (z / (2 * scale))).
  assert (Ha : 0 < a) by apply exp_pos.
  assert (Hia : exp (- (z / (2 * scale))) = / a) by apply exp_Ropp.
  assert (Hq : exp (- z / scale) = / a * / a).
  { replace (- z / scale)
      with (- (z / (2 * scale)) + - (z / (2 * scale))) by (field; exact Hs).
    now rewrite exp_plus, Hia. }
  unfold cosh. fold a. rewrite Hia, Hq. unfold Rsqr.
  cbn [powerRZ]. change (Pos.to_nat 2) with 2%nat.
  clearbody a. field. repeat split; try lra; nra.
Qed.

(** X5: [sech_dist] is the derivative of [sech_cdf]: for a non-zero scale
    both return at every [z], and the value of [sech_dist] is the slope of
    [sech_cdf] there. *)
Theorem sech_dist_is_derivative_of_sech_cdf (scale : R) :
  scale <> 0 ->
  exists cdf pdf : R -> R,
    (forall z, sech_cdf z scale = Ret (cdf z))
    /\ (forall z, sech_dist z scale = Ret (pdf z))
    /\ forall z, derivable_pt_lim cdf z (pdf z).
Proof.
  intros Hs.
  exists (fun y => 1 / (1 + exp (- y / scale))),
         (fun y => 1 / (4 * scale) * powerRZ (cosh (y / (2 * scale))) (-2)).
  split; [intros z; now apply sech_cdf_nonzero|].
  split; [intros z; now apply sech_dist_nonzero|].
  intros z. now apply logistic_derivative.
Qed.

(** X6: for a positive scale [inv_sech_cdf] is strictly increasing in the
    draw, and the draw [1/2] gives the midplane: draws below one half give
    negative heights, draws above it positive ones. *)
Theorem inv_sech_cdf_increasing (u v scale hu hv : R) :
  0 < scale -> 0 < u -> u < v -> v < 1 ->
  inv_sech_cdf u scale = Ret hu -> inv_sech_cdf v scale = Ret hv ->
  hu < hv /\ inv_sech_cdf (1 / 2) scale = Ret 0.
Proof.
  intros Hs Hu Huv Hv Hhu Hhv.
  rewrite inv_sech_cdf_open in Hhu, Hhv by lra.
  inversion Hhu; inversion Hhv; subst. clear Hhu Hhv.
  split.
  - assert (Hlt : 1 / v - 1 < 1 / u - 1).
    { unfold Rdiv. rewrite !Rmult_1_l.
      apply Rplus_lt_compat_r.
      apply Rinv_lt_contravar; [apply Rmult_lt_0_compat; lra|exact Huv]. }
    apply ln_increasing in Hlt; [|apply inv_minus_one_pos; lra].
    nra.
  - rewrite inv_sech_cdf_open by lra.
    replace (1 / (1 / 2) - 1) with 1 by field.
    rewrite ln_1. f_equal. ring.
Qed.

(** X7: the scale height [sech_scale(age, rfinal)] is positive and strictly
    increasing in the age and in the final radius. *)
Theorem sech_scale_positive_increasing (age1 age2 r1 r2 : R) :
  age1 < age2 -> r1 < r2 ->
  0 < sech_scale age1 r1
  /\ sech_scale age1 r1 < sech_scale age2 r1
  /\ sech_scale age1 r1 < sech_scale age1 r2.
Proof.
  intros Hage Hr. unfold sech_scale.
  pose proof (exp_pos ((age1 - 5) / 7.0)) as Ha1.
  pose proof (exp_pos ((r1 - 8) / 6.0)) as Hr1.
  assert (Ha : exp ((age1 - 5) / 7.0) < exp ((age2 - 5) / 7.0))
    by (apply exp_increasing; lra).
  assert (Hrr : exp ((r1 - 8) / 6.0) < exp ((r2 - 8) / 6.0))
    by (apply exp_increasing; lra).
  split; [|split]; nra.
Qed.

End Sech_profile.

Lemma sech_cdf_inv_sech_cdf_witness :
  0 < 0.25 < 1 /\ 2 <> 0
  /\ exists z : R,
      replace_zfinal.inv_sech_cdf 0.25 2 = Ret z
      /\ replace_zfinal.sech_cdf z 2 = Ret 0.25.
Proof.
  assert (Hu : 0 < 0.25 < 1) by lra.
  assert (Hs : 2 <> 0) by lra.
  split; [exact Hu|]. split; [exact Hs|].
  exact (sech_cdf_inv_sech_cdf 0.25 2 Hu Hs).
Defined.

Lemma inv_sech_cdf_sech_cdf_witness :
  2 <> 0
  /\ exists c : R,
      replace_zfinal.sech_cdf 3 2 = Ret c /\ 0 < c < 1
      /\ replace_zfinal.inv_sech_cdf c 2 = Ret 3.
Proof.
  assert (Hs : 2 <> 0) by lra.
  split; [exact Hs|].
  exact (inv_sech_cdf_sech_cdf 3 2 Hs).
Defined.

Lemma sech_cdf_increasing_witness :
  0 < 2 /\ 0 < 3
  /\ 1 / (1 + exp (- 0 / 2)) < 1 / (1 + exp (- 3 / 2)).
Proof.
  assert (Hs : 0 < 2) by lra.
  assert (Hz : 0 < 3) by lra.
  assert (Hnz : 2 <> 0) by lra.
  split; [exact Hs|]. split; [exact Hz|].
  exact (sech_cdf_increasing 0 3 2 _ _ Hs Hz
           (sech_cdf_nonzero 0 2 Hnz) (sech_cdf_nonzero 3 2 Hnz)).
Defined.

Lemma sech_profile_symmetric_witness :
  2 <> 0 /\ 0 < 0.25 < 1
  /\ replace_zfinal.sech_dist (- 3) 2 = replace_zfinal.sech_dist 3 2.
Proof.
  assert (Hs : 2 <> 0) by lra.
  assert (Hu : 0 < 0.25 < 1) by lra.
  split; [exact Hs|]. split; [exact Hu|].
  exact (proj1 (proj2 (sech_profile_symmetric 3 0.25 2 Hs Hu))).
Defined.

Lemma sech_dist_is_derivative_of_sech_cdf_witness :
  2 <> 0
  /\ exists cdf pdf : R -> R,
      (forall z, replace_zfinal.sech_cdf z 2 = Ret (cdf z))
      /\ (forall z, replace_zfinal.sech_dist z 2 = Ret (pdf z))
      /\ forall z, derivable_pt_lim cdf z (pdf z).
Proof.
  assert (Hs : 2 <> 0) by lra.
  split; [exact Hs|].
  exact (sech_dist_is_derivative_of_sech_cdf 2 Hs).
Defined.

Lemma inv_sech_cdf_increasing_witness :
  0 < 2 /\ 0 < 0.25 /\ 0.25 < 0.75 /\ 0.75 < 1
  /\ - 2 * ln (1 / 0.25 - 1) < - 2 * ln (1 / 0.75 - 1).
Proof.
  assert (Hs : 0 < 2) by lra.
  assert (H1 : 0 < 0.25) by lra.
  assert (H2 : 0.25 < 0.75) by lra.
  assert (H3 : 0.75 < 1) by lra.
  assert (Ha : 0 < 0.25 < 1) by lra.
  assert (Hb : 0 < 0.75 < 1) by lra.
  split; [exact Hs|]. split; [exact H1|]. split; [exact H2|].
  split; [exact H3|].
  exact (proj1 (inv_sech_cdf_increasing 0.25 0.75 2 _ _ Hs H1 H2 H3
                  (inv_sech_cdf_open 0.25 2 Ha)
                  (inv_sech_cdf_open 0.75 2 Hb))).
Defined.

Lemma sech_scale_positive_increasing_witness :
  1 < 10 /\ 4 < 8
  /\ 0 < replace_zfinal.sech_scale 1 4
  /\ replace_zfinal.sech_scale 1 4 < replace_zfinal.sech_scale 10 4
  /\ replace_zfinal.sech_scale 1 4 < replace_zfinal.sech_scale 1 8.
Proof.
  assert (Ha : 1 < 10) by lra.
  assert (Hr : 4 < 8) by lra.
  split; [exact Ha|]. split; [exact Hr|].
  exact (sech_scale_positive_increasing 1 10 4 8 Ha Hr).
Defined.

(** ** The post-process pass as a whole *)

Section Pass.
Import replace_zfinal.
Context {RM : random_module} {G : globals}.

Lemma set_zfinal_other_columns (t : list analog_row) :
  forall samples, List.length t = List.length samples ->
    map zone_origin (set_zfinal t samples) = map zone_origin t
    /\ map time_origin (set_zfinal t samples) = map time_origin t
    /\ map analog_id (set_zfinal t samples) = map analog_id t
    /\ List.length (set_zfinal t samples) = List.length t.
Proof.
  induction t as [|r t IH]; intros [|z0 samples] Hlen;
    cbn in *; try congruence; try (repeat split; reflexivity).
  destruct (IH samples) as (H1 & H2 & H3 & H4); [congruence|].
  rewrite H1, H2, H3, H4. repeat split; reflexivity.
Qed.

Lemma inv_sech_cdf_raises (u scale : R) (e : exn) :
  inv_sech_cdf u scale = Raise e -> e = ZeroDivisionError \/ e = ValueError.
Proof.
  unfold inv_sech_cdf, float_div, math_log.
  destruct (float_eqb u 0); cbn [bind]; [intros [= <-]; now left|].
  destruct (float_ltb 0 (1 / u - 1)); cbn [bind]; [discriminate|].
  intros [= <-]. now right.
Qed.

Lemma inv_sech_cdf_np_raises (u : R) (hz : cell) (e : exn) :
  inv_sech_cdf_np u hz = Raise e -> e = ZeroDivisionError \/ e = ValueError.
Proof.
  destruct hz as [s|]; cbn [inv_sech_cdf_np].
  - destruct (inv_sech_cdf u s) as [z0|e0] eqn:Hinv; cbn [bind];
      [discriminate|].
    intros [= <-]. eapply inv_sech_cdf_raises. exact Hinv.
  - unfold float_div, math_log.
    destruct (float_eqb u 0); cbn [bind]; [intros [= <-]; now left|].
    destruct (float_ltb 0 (1 / u - 1)); cbn [bind]; [discriminate|].
    intros [= <-]. now right.
Qed.

Lemma sample_loop_raises (stars : list star_row) :
  forall (g g' : rng) (e : exn),
    sample_loop stars g = (Raise e, g') ->
    e = ZeroDivisionError \/ e = ValueError.
Proof.
  induction stars as [|s rest IH]; intros g g' e Hloop.
  - discriminate.
  - cbn [sample_loop] in Hloop.
    destruct (random_random g) as [u g1].
    destruct (inv_sech_cdf_np u _) as [z0|e0] eqn:Hinv.
    + destruct (sample_loop rest g1) as [[zs|e1] g2] eqn:Hrest;
        [discriminate|].
      inversion Hloop; subst. eapply IH. exact Hrest.
    + inversion Hloop; subst. eapply inv_sech_cdf_np_raises. exact Hinv.
Qed.

Lemma process_file_paths (w w' : world) (g g' : rng) (p : string)
    (r : outcome unit) :
  process_file w g p = (r, w', g') -> analog_paths w' = analog_paths w.
Proof.
  unfold process_file. intros Hrun.
  destruct (Nat.eqb _ _);
    [destruct (sample_loop _ g) as [[zs|e] g1]|];
    inversion Hrun; reflexivity.
Qed.

(** X8: at the level of the parsed table, a pass over a file that returns
    replaces the [zfinal] column and adds one leading column with the row
    numbers (the index that [to_csv] writes), and changes nothing else: the
    file keeps its number of rows and the values of its [zone_origin],
    [time_origin] and [analog_id] columns, every other file and every VICE
    output is as before, and exactly one uniform draw per row of the frame
    of the output was consumed. *)
Theorem process_file_replaces_only_zfinal
    (w w' : world) (g g' : rng) (filepath : string) :
  process_file w g filepath = (Ret tt, w', g') ->
  List.length (rows (analog_file w' filepath))
  = List.length (rows (analog_file w filepath))
  /\ map zone_origin (rows (analog_file w' filepath))
     = map zone_origin (rows (analog_file w filepath))
  /\ map time_origin (rows (analog_file w' filepath))
     = map time_origin (rows (analog_file w filepath))
  /\ map analog_id (rows (analog_file w' filepath))
     = map analog_id (rows (analog_file w filepath))
  /\ index_columns (analog_file w' filepath)
     = S (index_columns (analog_file w filepath))
  /\ (forall q, q <> filepath -> analog_file w' q = analog_file w q)
  /\ vice_output w' = vice_output w
  /\ g' = rng_after
            (List.length (multioutput_to_pandas w (output_name_of filepath))) g.
Proof.
  intros Hrun.
  destruct (process_file_frame _ _ _ _ _ _ Hrun) as [Hv Hf].
  unfold process_file in Hrun.
  destruct (Nat.eqb _ _) eqn:Hlen; [|discriminate].
  apply Nat.eqb_eq in Hlen.
  destruct (sample_loop _ g) as [[zs|e] g1] eqn:Hloop; [|discriminate].
  inversion Hrun; subst. clear Hrun.
  pose proof (sample_loop_length _ _ _ _ Hloop) as Hzs.
  apply sample_loop_ret in Hloop as [_ Hg].
  cbn [to_csv analog_file vice_output] in *. rewrite String.eqb_refl.
  cbn [rows index_columns].
  destruct (set_zfinal_other_columns (rows (analog_file w filepath)) zs)
    as (H1 & H2 & H3 & H4); [congruence|].
  split; [exact H4|]. split; [exact H1|]. split; [exact H2|].
  split; [exact H3|]. split; [reflexivity|]. split; [exact Hf|].
  split; [reflexivity|exact Hg].
Qed.

(** X9: a pass over a file that raises writes nothing: the files are exactly
    as before, and the exception is the failed assertion on the row counts,
    the division by a zero draw, or the logarithm outside its domain. *)
Theorem process_file_raise_writes_nothing
    (w w' : world) (g g' : rng) (filepath : string) (e : exn) :
  process_file w g filepath = (Raise e, w', g') ->
  w' = w
  /\ (e = AssertionError \/ e = ZeroDivisionError \/ e = ValueError).
Proof.
  unfold process_file. intros Hrun.
  destruct (Nat.eqb _ _).
  - destruct (sample_loop _ g) as [[zs|e0] g1] eqn:Hloop; [discriminate|].
    inversion Hrun; subst. split; [reflexivity|].
    right. eapply sample_loop_raises. exact Hloop.
  - inversion Hrun; subst. split; [reflexivity|]. now left.
Qed.

Lemma draws_app (k : nat) :
  forall (n : nat) (g : rng),
    draws (k + n) g = draws k g ++ draws n (rng_after k g).
Proof.
  induction k as [|k IH]; intros n g; [reflexivity|].
  cbn [Nat.add draws rng_after].
  destruct (random_random g) as [u g1]. cbn [snd app].
  now rewrite IH.
Qed.

Lemma draws_after_in_range (g : rng) (k : nat) :
  (forall n, Forall (fun u => 0 < u < 1) (draws n g)) ->
  forall n, Forall (fun u => 0 < u < 1) (draws n (rng_after k g)).
Proof.
  intros Hall n. specialize (Hall (k + n)%nat).
  rewrite draws_app in Hall. apply Forall_app in Hall. tauto.
Qed.

(** The number of rows of the frame of an output depends on the files only
    through their numbers of rows and the VICE outputs. *)
Lemma multioutput_rows_stable (w w' : world) (name : string) :
  vice_output w' = vice_output w ->
  (forall q, List.length (rows (analog_file w' q))
             = List.length (rows (analog_file w q))) ->
  List.length (multioutput_to_pandas w' name)
  = List.length (multioutput_to_pandas w name).
Proof.
  intros Hv Hrows. unfold multioutput_to_pandas. rewrite Hv.
  destruct (vice_output w name); rewrite !length_map; [apply Hrows|reflexivity].
Qed.

Lemma process_files_total (ps : list string) :
  forall (w : world) (g : rng),
    (forall p, In p ps ->
       List.length (rows (analog_file w p))
       = List.length (multioutput_to_pandas w (output_name_of p))) ->
    (forall n, Forall (fun u => 0 < u < 1) (draws n g)) ->
    exists w' g', process_files w g ps = (Ret tt, w', g').
Proof.
  induction ps as [|p ps IH]; intros w g Hrows Hdraws.
  - now exists w, g.
  - cbn [process_files].
    assert (Hlen : List.length (rows (analog_file w p))
                   = List.length (multioutput_to_pandas w (output_name_of p)))
      by (apply Hrows; now left).
    destruct (sample_loop_total
                (multioutput_to_pandas w (output_name_of p)) g
                (Hdraws _)) as [zs Hzs].
    assert (Hrun : process_file w g p
                   = (Ret tt,
                      to_csv w p
                        {| index_columns := index_columns (analog_file w p);
                           rows := set_zfinal (rows (analog_file w p)) zs |},
                      rng_after
                        (List.length
                           (multioutput_to_pandas w (output_name_of p))) g)).
    { unfold process_file.
      apply Nat.eqb_eq in Hlen. now rewrite Hlen, Hzs. }
    rewrite Hrun.
    destruct (process_file_replaces_only_zfinal _ _ _ _ _ Hrun)
      as (Hn & _ & _ & _ & _ & Hother & Hv & _).
    assert (Hcount : forall q,
               List.length (rows (analog_file
                                    (to_csv w p
                                       {| index_columns :=
                                            index_columns (analog_file w p);
                                          rows := set_zfinal
                                                    (rows (analog_file w p))
                                                    zs |}) q))
               = List.length (rows (analog_file w q))).
    { intros q. destruct (String.eqb_spec q p) as [->|Hneq];
        [exact Hn|now rewrite (Hother q Hneq)]. }
    apply IH.
    + intros q Hq. rewrite Hcount.
      rewrite (multioutput_rows_stable _ _ _ Hv Hcount).
      apply Hrows. now right.
    + now apply draws_after_in_range.
Qed.

(** X10: [main] returns when every analog file found has as many rows as the
    frame that [multioutput_to_pandas] builds for its output (one row per
    star particle, when the output has any) and the generator never yields a
    draw outside the open interval (0, 1). *)
Theorem main_returns (w : world) (g : rng) :
  (forall p, In p (analog_paths w) ->
     List.length (rows (analog_file w p))
     = List.length (multioutput_to_pandas w (output_name_of p))) ->
  (forall n, Forall (fun u => 0 < u < 1) (draws n g)) ->
  exists w' g', main w g = (Ret tt, w', g').
Proof.
  intros Hrows Hdraws. unfold main. now apply process_files_total.
Qed.

Lemma process_files_paths (ps : list string) :
  forall (w w' : world) (g g' : rng) (r : outcome unit),
    process_files w g ps = (r, w', g') -> analog_paths w' = analog_paths w.
Proof.
  induction ps as [|p ps IH]; intros w w' g g' r Hrun.
  - cbn in Hrun. now inversion Hrun.
  - cbn [process_files] in Hrun.
    destruct (process_file w g p) as [[[[]|e] w1] g1] eqn:Hp.
    + rewrite (IH _ _ _ _ _ Hrun). eapply process_file_paths. exact Hp.
    + inversion Hrun; subst. eapply process_file_paths. exact Hp.
Qed.

(** X11: whether it returns or raises, [main] leaves every VICE output and
    every analog file that the glob did not list as it was. *)
Theorem main_touches_listed_files_only
    (w w' : world) (g g' : rng) (r : outcome unit) (q : string) :
  main w g = (r, w', g') ->
  ~ In q (analog_paths w) ->
  analog_file w' q = analog_file w q
  /\ vice_output w' = vice_output w
  /\ analog_paths w' = analog_paths w.
Proof.
  unfold main. intros Hrun Hq.
  destruct (process_files_frame _ _ _ _ _ _ Hrun) as [Hv Hf].
  split; [now apply Hf|]. split; [exact Hv|].
  eapply process_files_paths. exact Hrun.
Qed.

End Pass.

(** A tape of draws inside (0, 1) never yields a draw outside it. *)
Lemma tape_draws_in_range (n : nat) :
  forall g : list R,
    Forall (fun u => 0 < u < 1) g ->
    Forall (fun u => 0 < u < 1)
      (@replace_zfinal.draws fixtures.tape_random n g).
Proof.
  induction n as [|n IH]; intros g Hg; [constructor|].
  cbn [replace_zfinal.draws replace_zfinal.random_random fixtures.tape_random].
  constructor.
  - destruct Hg as [|u g Hu Hg]; cbn [hd]; [lra|exact Hu].
  - apply IH. destruct Hg as [|u g Hu Hg]; cbn [tl]; [constructor|exact Hg].
Qed.

Lemma process_file_replaces_only_zfinal_witness :
  exists w' g',
    @replace_zfinal.process_file fixtures.tape_random fixtures.script_globals
      (fixtures.one_file [fixtures.a_star]) [0.5] "a_analogdata.out"
    = (Ret tt, w', g')
    /\ map replace_zfinal.analog_id
         (replace_zfinal.rows
            (replace_zfinal.analog_file w' "a_analogdata.out"))
       = map replace_zfinal.analog_id
           (replace_zfinal.rows
              (replace_zfinal.analog_file
                 (fixtures.one_file [fixtures.a_star]) "a_analogdata.out"))
    /\ replace_zfinal.index_columns
         (replace_zfinal.analog_file w' "a_analogdata.out")
       = 1%nat.
Proof.
  pose proof (@process_file_replaces_only_zfinal
                fixtures.tape_random fixtures.script_globals
                _ _ _ _ _ tape_pass_run) as Hpass.
  eexists. eexists. split; [exact tape_pass_run|].
  split; [exact (proj1 (proj2 (proj2 (proj2 Hpass))))|].
  exact (proj1 (proj2 (proj2 (proj2 (proj2 Hpass))))).
Defined.

Lemma process_file_raise_writes_nothing_witness :
  exists w' g',
    @replace_zfinal.process_file fixtures.tape_random fixtures.script_globals
      (fixtures.one_file [fixtures.a_star]) [0] "a_analogdata.out"
    = (Raise ZeroDivisionError, w', g')
    /\ w' = fixtures.one_file [fixtures.a_star].
Proof.
  eexists. eexists. split; [exact tape_pass_zero_draw|].
  exact (proj1 (@process_file_raise_writes_nothing
                  fixtures.tape_random fixtures.script_globals
                  _ _ _ _ _ _ tape_pass_zero_draw)).
Defined.

Lemma main_returns_witness :
  exists w' g',
    @replace_zfinal.main fixtures.tape_random fixtures.script_globals
      (fixtures.one_file [fixtures.a_star]) [0.25; 0.5]
    = (Ret tt, w', g').
Proof.
  apply (@main_returns fixtures.tape_random fixtures.script_globals).
  - intros p Hp. reflexivity.
  - intros n. apply tape_draws_in_range.
    repeat constructor; lra.
Defined.

Lemma main_touches_listed_files_only_witness :
  exists w' g',
    @replace_zfinal.main fixtures.tape_random fixtures.script_globals
      (fixtures.one_file [fixtures.a_star]) [0.5]
    = (Ret tt, w', g')
    /\ ~ In "b_analogdata.out"%string
          (replace_zfinal.analog_paths (fixtures.one_file [fixtures.a_star]))
    /\ replace_zfinal.analog_file w' "b_analogdata.out"
       = replace_zfinal.analog_file (fixtures.one_file [fixtures.a_star])
           "b_analogdata.out".
Proof.
  assert (Hq : ~ In "b_analogdata.out"%string
                  (replace_zfinal.analog_paths
                     (fixtures.one_file [fixtures.a_star]))).
  { cbn. intros [Heq|[]]. discriminate. }
  eexists. eexists.
  assert (Hrun :
    @replace_zfinal.main fixtures.tape_random fixtures.script_globals
      (fixtures.one_file [fixtures.a_star]) [0.5]
    = (Ret tt,
       replace_zfinal.to_csv (fixtures.one_file [fixtures.a_star])
         "a_analogdata.out"
         {| replace_zfinal.index_columns := 0;
            replace_zfinal.rows :=
              [ {| replace_zfinal.zone_origin := 4;
                   replace_zfinal.time_origin := 0;
                   replace_zfinal.analog_id := 7;
                   replace_zfinal.zfinal :=
                     Some (- replace_zfinal.sech_scale 5 (80 * 0.1)
                           * ln (1 / 0.5 - 1)) |} ] |},
       [])).
  { unfold replace_zfinal.main.
    cbn [replace_zfinal.analog_paths fixtures.one_file
         replace_zfinal.process_files].
    fold (fixtures.one_file [fixtures.a_star]).
    rewrite tape_pass_run. reflexivity. }
  split; [exact Hrun|]. split; [exact Hq|].
  exact (proj1 (@main_touches_listed_files_only
                  fixtures.tape_random fixtures.script_globals
                  _ _ _ _ _ _ Hrun Hq)).
Defined.

(** ** More on [diskmigration]: the file over a whole run, and errors *)

Lemma string_append_assoc (a b c : string) :
  ((a ++ b) ++ c)%string = (a ++ (b ++ c))%string.
Proof. induction a as [|x a IH]; cbn; [reflexivity|now rewrite IH]. Qed.

Lemma string_append_nil_r (a : string) : (a ++ "")%string = a.
Proof. induction a as [|x a IH]; cbn; [reflexivity|now rewrite IH]. Qed.

Section Disk_migration_runs.
Import migration migration.diskmigration.
Context {H : hydrodiskstars} {F : format_module}.

Local Notation TAB := (String "009"%char EmptyString).
Local Notation NL := (String "010"%char EmptyString).

Lemma data_lines_app (rs1 rs2 : list (Z * R * Z * R)) :
  data_lines (rs1 ++ rs2) = (data_lines rs1 ++ data_lines rs2)%string.
Proof.
  induction rs1 as [|[[[zone tform] analog_id] finalz] rs1 IH];
    cbn [app data_lines]; [reflexivity|].
  now rewrite IH, string_append_assoc.
Qed.

Lemma py_index_raises {A : Type} (l : list A) (i : Z) (e : exn) :
  py_index l i = Raise e -> e = IndexError.
Proof.
  unfold py_index.
  destruct (_ && _)%bool; [destruct (nth_error _ _)|]; congruence.
Qed.

Lemma analog_fields_raises (b : hydro) (e : exn) :
  analog_fields b = Raise e -> e = IndexError.
Proof.
  unfold analog_fields.
  destruct (analog_index b =? -1)%Z; [discriminate|].
  destruct (py_index (analog_data_zfinal b) _) as [z|e1] eqn:Hz; cbn [bind].
  - destruct (py_index (analog_data_id b) _) as [i|e2] eqn:Hi; cbn [bind];
      [discriminate|].
    intros [= <-]. eapply py_index_raises. exact Hi.
  - intros [= <-]. eapply py_index_raises. exact Hz.
Qed.

(** What a call does to the file: nothing, or one line of a formation call. *)
Lemma call_file_effect (self : instance) (zone : Z) (tform time : R) :
  _file (snd (__call__ self zone tform time)) = _file self
  \/ (tform = time
      /\ exists (analog_id : Z) (finalz : R),
          _file (snd (__call__ self zone tform time))
          = {| f_name := f_name (_file self);
               f_closed := false;
               f_data := f_data (_file self)
                         ++ data_line zone tform analog_id finalz |}).
Proof.
  destruct (Req_dec_T tform time) as [->|Hneq].
  - unfold __call__. rewrite float_eqb_refl.
    destruct (super_call (base self) zone time time) as [z b].
    cbn [_write _file].
    destruct (_write self); [|now left].
    destruct (analog_fields b) as [[finalz analog_id]|e]; [|now left].
    unfold file_write. destruct (f_closed (_file self)); [now left|].
    right. split; [reflexivity|]. now exists analog_id, finalz.
  - left. now rewrite call_not_formation.
Qed.

(** The file of an object stays the header followed by records, whatever is
    called on it. *)
Lemma after_calls_records (cs : list method_call) :
  forall (self : instance) (records : list (Z * R * Z * R)),
    f_data (_file self) = (header ++ data_lines records)%string ->
    exists more : list (Z * R * Z * R),
      f_data (_file (after_calls self cs))
      = (header ++ data_lines (records ++ more))%string
      /\ f_name (_file (after_calls self cs)) = f_name (_file self)
      /\ Forall (fun r => match r with
                          | (zone, tform, _, _) => In (Call zone tform tform) cs
                          end) more.
Proof.
  induction cs as [|c cs IH]; intros self records Hdata.
  - exists []. rewrite app_nil_r. cbn. repeat split; [exact Hdata|constructor].
  - unfold after_calls. cbn [fold_left]. fold (after_calls (after_call self c) cs).
    assert (Hstep :
      (f_data (_file (after_call self c)) = f_data (_file self)
       /\ f_name (_file (after_call self c)) = f_name (_file self))
      \/ exists zone tform analog_id finalz,
           c = Call zone tform tform
           /\ f_data (_file (after_call self c))
              = (f_data (_file self)
                 ++ data_line zone tform analog_id finalz)%string
           /\ f_name (_file (after_call self c)) = f_name (_file self)).
    { destruct c as [zone tform time|value|]; cbn [after_call].
      - destruct (call_file_effect self zone tform time)
          as [Hsame|[-> (analog_id & finalz & Hnew)]].
        + left. now rewrite Hsame.
        + right. exists zone, time, analog_id, finalz.
          rewrite Hnew. now cbn.
      - left. now destruct value.
      - left. now split. }
    destruct Hstep as [[Hd Hn]|(zone & tform & analog_id & finalz & -> & Hd & Hn)].
    + destruct (IH (after_call self c) records) as (more & Hm & Hnm & Hin);
        [now rewrite Hd|].
      exists more. split; [exact Hm|]. split; [congruence|].
      eapply Forall_impl; [|exact Hin].
      intros [[[z t] i] f] Hr. now right.
    + destruct (IH (after_call self (Call zone tform tform))
                   (records ++ [(zone, tform, analog_id, finalz)]))
        as (more & Hm & Hnm & Hin).
      { rewrite Hd, Hdata, data_lines_app. cbn [data_lines].
        now rewrite string_append_nil_r, string_append_assoc. }
      exists ((zone, tform, analog_id, finalz) :: more).
      split; [now rewrite Hm, <- app_assoc|]. split; [congruence|].
      constructor; [now left|].
      eapply Forall_impl; [|exact Hin].
      intros [[[z t] i] f] Hr. now right.
Qed.

(** X12: over a whole run, the output file is the header line followed by
    well-formed records only: after the constructor and any sequence of
    calls, setter assignments and [close_file], its contents are the header
    and one [data_line] per record, each record carrying the zone and the
    formation time of a formation call that was made; the file name never
    changes. *)
Theorem output_file_is_header_then_records
    (opened opened' : list string) (radbins : list R) (mode : pyval)
    (name : string) (kwargs : list (string * pyval)) (self : instance)
    (cs : list method_call) :
  __init__ opened radbins mode (PyStr name) kwargs = (Ret self, opened') ->
  exists records : list (Z * R * Z * R),
    f_data (_file (after_calls self cs)) = (header ++ data_lines records)%string
    /\ f_name (_file (after_calls self cs)) = name
    /\ Forall (fun r => match r with
                        | (zone, tform, _, _) => In (Call zone tform tform) cs
                        end) records.
Proof.
  unfold __init__, file_write, open_w. cbn [f_closed f_name f_data].
  intros Hinit. inversion Hinit; subst. clear Hinit.
  match goal with
  | |- context [after_calls ?s cs] =>
      destruct (after_calls_records cs s []) as (more & Hm & Hn & Hin)
  end.
  { cbn [_file f_data data_lines]. now rewrite string_append_nil_r. }
  exists more. cbn [app] in Hm. split; [exact Hm|]. split; [exact Hn|exact Hin].
Qed.

(** X13: once the file is closed, a formation call with writing enabled
    raises [ValueError] (when the analog lookup itself succeeds) and leaves
    the file as it is, although the base class has already reset its analog;
    with writing disabled the call still returns the zone. *)
Theorem formation_call_after_close (self : instance) (zone : Z) (t : R) :
  let b := snd (super_call (base self) zone t t) in
  (_write self = true ->
   (exists fields, analog_fields b = Ret fields) ->
   __call__ (close_file self) zone t t
   = (Raise ValueError,
      {| base := b; _file := file_close (_file self); _write := true |}))
  /\ (_write self = false ->
      __call__ (close_file self) zone t t
      = (Ret zone,
         {| base := b; _file := file_close (_file self); _write := false |})).
Proof.
  intros b. subst b. split.
  - intros Hw [[finalz analog_id] Hfields].
    unfold __call__. rewrite float_eqb_refl.
    cbn [close_file base _file _write].
    destruct (super_call (base self) zone t t) as [z b].
    cbn [snd _write _file] in *. rewrite Hw, Hfields.
    reflexivity.
  - intros Hw.
    rewrite call_formation_no_write by exact Hw. reflexivity.
Qed.

(** X14: a freshly constructed object records nothing until writing is
    enabled: right after the constructor a formation call returns the zone
    and leaves the file at the header; after [write = True] the same call
    appends its line, in the format ["%d\t%.2f\t%d\t%.2f\n"], right after
    the header. *)
Theorem fresh_object_writes_after_enabling
    (opened opened' : list string) (radbins : list R) (mode : pyval)
    (name : string) (kwargs : list (string * pyval)) (self : instance)
    (zone : Z) (t finalz : R) (analog_id : Z) :
  __init__ opened radbins mode (PyStr name) kwargs = (Ret self, opened') ->
  analog_fields (snd (super_call (base self) zone t t))
    = Ret (finalz, analog_id) ->
  fst (__call__ self zone t t) = Ret zone
  /\ f_data (_file (snd (__call__ self zone t t))) = header
  /\ (let enabled := snd (set_write self (PyBool true)) in
      fst (__call__ enabled zone t t) = Ret zone
      /\ f_data (_file (snd (__call__ enabled zone t t)))
         = (String "#" (String " " spec.header)
            ++ (format_d zone ++ TAB ++ format_2f t ++ TAB
                ++ format_d analog_id ++ TAB ++ format_2f finalz
                ++ NL))%string).
Proof.
  unfold __init__, file_write, open_w. cbn [f_closed f_name f_data].
  intros Hinit Hfields. inversion Hinit; subst. clear Hinit.
  rewrite call_formation_no_write by reflexivity.
  cbn [fst snd _file f_data set_write base _write] in *.
  split; [reflexivity|]. split; [reflexivity|].
  erewrite call_formation_write;
    [|reflexivity|reflexivity|cbn [base]; exact Hfields].
  cbn [fst snd _file f_data]. now split.
Qed.

(** X15: a formation call returns the zone it was given, or raises
    [IndexError] or [ValueError]; it returns exactly when writing is
    disabled, or the analog lookup succeeds and the file is open. *)
Theorem formation_call_outcome (self : instance) (zone : Z) (t : R) :
  let b := snd (super_call (base self) zone t t) in
  let r := fst (__call__ self zone t t) in
  (r = Ret zone \/ r = Raise IndexError \/ r = Raise ValueError)
  /\ (r = Ret zone <->
      _write self = false
      \/ (f_closed (_file self) = false
          /\ exists fields, analog_fields b = Ret fields)).
Proof.
  intros b r. subst b r. unfold __call__. rewrite float_eqb_refl.
  destruct (super_call (base self) zone t t) as [z b].
  cbn [snd _write _file]. destruct (_write self).
  - destruct (analog_fields b) as [[finalz analog_id]|e] eqn:Hfields.
    + unfold file_write. destruct (f_closed (_file self)); cbn [fst].
      * split; [now right; right|].
        split; [discriminate|]. intros [Hw|[Hc _]]; discriminate.
      * split; [now left|].
        split; [|reflexivity]. intros _. right. split; [reflexivity|].
        now eexists.
    + cbn [fst]. apply analog_fields_raises in Hfields as ->.
      split; [now right; left|].
      split; [discriminate|].
      intros [Hw|[_ [fields Hf]]]; discriminate.
  - cbn [fst]. split; [now left|]. split; [now left|reflexivity].
Qed.

(** X16: an [analog_index] other than -1 that falls outside the [zfinal]
    column makes a formation call with writing enabled raise [IndexError]
    before anything is written. *)
Theorem formation_call_index_out_of_range (self : instance) (zone : Z) (t : R) :
  let b := snd (super_call (base self) zone t t) in
  let n := Z.of_nat (List.length (analog_data_zfinal b)) in
  _write self = true ->
  analog_index b <> (-1)%Z ->
  (analog_index b < - n \/ n <= analog_index b)%Z ->
  __call__ self zone t t
  = (Raise IndexError,
     {| base := b; _file := _file self; _write := true |}).
Proof.
  intros b n Hw Hidx Hrange. subst b n.
  unfold __call__. rewrite float_eqb_refl.
  destruct (super_call (base self) zone t t) as [z b].
  cbn [snd _write _file] in *. rewrite Hw.
  unfold analog_fields. apply Z.eqb_neq in Hidx. rewrite Hidx.
  assert (Hz : py_index (analog_data_zfinal b) (analog_index b)
               = Raise IndexError).
  { unfold py_index. cbv zeta.
    destruct (analog_index b <? 0)%Z eqn:Hneg.
    - apply Z.ltb_lt in Hneg.
      destruct (_ && _)%bool eqn:Hin; [|reflexivity].
      apply andb_prop in Hin as [H0 H1].
      apply Z.leb_le in H0. apply Z.ltb_lt in H1. lia.
    - apply Z.ltb_ge in Hneg.
      destruct (_ && _)%bool eqn:Hin; [|reflexivity].
      apply andb_prop in Hin as [H0 H1].
      apply Z.leb_le in H0. apply Z.ltb_lt in H1. lia. }
  rewrite Hz. reflexivity.
Qed.

End Disk_migration_runs.

Section Disk_migration_run_examples.
Import migration migration.diskmigration.
#[local] Existing Instance fixtures.toy_hydro.
#[local] Existing Instance fixtures.toy_format.

Lemma output_file_is_header_then_records_witness :
  exists self : @instance fixtures.toy_hydro,
    @__init__ fixtures.toy_hydro [] [0; 0.1] (PyStr "diffusion")
      (PyStr "stars.out") []
    = (Ret self, ["stars.out"%string])
    /\ exists records : list (Z * R * Z * R),
        f_data (_file (@after_calls fixtures.toy_hydro fixtures.toy_format self
                         [SetWrite (PyBool true); Call 4 0 0; Call 1 0 1;
                          CloseFile; Call 1 2 2]))
        = (header ++ @data_lines fixtures.toy_format records)%string
        /\ f_name (_file (@after_calls fixtures.toy_hydro fixtures.toy_format
                            self
                            [SetWrite (PyBool true); Call 4 0 0; Call 1 0 1;
                             CloseFile; Call 1 2 2]))
           = "stars.out"%string
        /\ Forall (fun r => match r with
                            | (zone, tform, _, _) =>
                                In (Call zone tform tform)
                                   [SetWrite (PyBool true); Call 4 0 0;
                                    Call 1 0 1; CloseFile; Call 1 2 2]
                            end) records.
Proof.
  eexists. split; [reflexivity|].
  exact (@output_file_is_header_then_records
           fixtures.toy_hydro fixtures.toy_format
           [] _ [0; 0.1] (PyStr "diffusion") "stars.out" [] _ _ eq_refl).
Defined.

Lemma formation_call_after_close_witness :
  _write (fixtures.toy_disk true) = true
  /\ (exists fields,
         @analog_fields fixtures.toy_hydro
           (snd (@super_call fixtures.toy_hydro
                   (base (fixtures.toy_disk true)) 4 0 0))
         = Ret fields)
  /\ @__call__ fixtures.toy_hydro fixtures.toy_format
       (close_file (fixtures.toy_disk true)) 4 0 0
     = (Raise ValueError,
        {| base := (-1)%Z;
           _file := file_close (_file (fixtures.toy_disk true));
           _write := true |}).
Proof.
  assert (Hf : exists fields,
             @analog_fields fixtures.toy_hydro
               (snd (@super_call fixtures.toy_hydro
                       (base (fixtures.toy_disk true)) 4 0 0))
             = Ret fields) by (eexists; reflexivity).
  split; [reflexivity|]. split; [exact Hf|].
  exact (proj1 (@formation_call_after_close
                  fixtures.toy_hydro fixtures.toy_format
                  (fixtures.toy_disk true) 4 0) eq_refl Hf).
Defined.

Lemma fresh_object_writes_after_enabling_witness :
  exists self : @instance fixtures.toy_hydro,
    @__init__ fixtures.toy_hydro [] [0; 0.1] (PyStr "diffusion")
      (PyStr "stars.out") []
    = (Ret self, ["stars.out"%string])
    /\ @analog_fields fixtures.toy_hydro
         (snd (@super_call fixtures.toy_hydro (base self) 4 0 0))
       = Ret (0, (-1)%Z)
    /\ f_data (_file (snd (@__call__ fixtures.toy_hydro fixtures.toy_format
                             self 4 0 0)))
       = header
    /\ f_data (_file (snd (@__call__ fixtures.toy_hydro fixtures.toy_format
                             (snd (set_write self (PyBool true))) 4 0 0)))
       = (header
          ++ ("4" ++ String "009"%char "0.00"
              ++ String "009"%char "-1"
              ++ String "009"%char "0.00"
              ++ String "010"%char ""))%string.
Proof.
  pose proof (@fresh_object_writes_after_enabling
                fixtures.toy_hydro fixtures.toy_format
                [] _ [0; 0.1] (PyStr "diffusion") "stars.out" []
                _ 4%Z 0 0 (-1)%Z eq_refl eq_refl) as (_ & Hfresh & Hon).
  eexists. split; [reflexivity|]. split; [reflexivity|].
  split; [exact Hfresh|].
  cbv zeta in Hon. destruct Hon as [_ Hline]. rewrite Hline.
  cbn -[float_eqb]. rewrite float_eqb_refl. reflexivity.
Defined.

Lemma formation_call_outcome_witness :
  fst (@__call__ fixtures.toy_hydro fixtures.toy_format
         (fixtures.toy_disk false) 4 0 0)
  = Ret 4%Z.
Proof.
  apply (proj2 (@formation_call_outcome
                  fixtures.toy_hydro fixtures.toy_format
                  (fixtures.toy_disk false) 4 0)).
  left. reflexivity.
Defined.

Lemma formation_call_index_out_of_range_witness :
  @__call__ fixtures.zone_index_hydro fixtures.toy_format
    (fixtures.zone_index_disk (-1)) 7 0 0
  = (Raise IndexError, fixtures.zone_index_disk 7).
Proof.
  apply (@formation_call_index_out_of_range
           fixtures.zone_index_hydro fixtures.toy_format
           (fixtures.zone_index_disk (-1)) 7 0).
  - reflexivity.
  - cbn. discriminate.
  - right. cbn. lia.
Defined.

End Disk_migration_run_examples.

(** ** More on [gaussian_migration] *)

Section Gaussian_queries.
Import migration.gaussian_migration.
Context {G : globals}.

(** The object a completed formation call leaves behind. *)
Lemma formation_call_result
    (fuel : nat) (self self1 : instance) (g g1 : rng) (zone : Z) (t : R)
    (r : outcome pyval) :
  __call__ fuel self g zone t t = Some (r, self1, g1) ->
  exists d : R,
    self1 = {| zone_width := zone_width self; dR := Some d |}
    /\ 0 < zone_width self * (IZR zone + 0.5) + d.
Proof.
  unfold __call__. rewrite float_eqb_refl.
  destruct (resample_loop _ _ _ _) as [[d g0]|] eqn:Hloop; [|discriminate].
  intros Hcall. inversion Hcall; subst. clear Hcall.
  destruct (resample_loop_some _ _ _ _ _ _ Hloop)
    as (k & _ & _ & _ & Hpos & _).
  now exists d.
Qed.

(** X17: a call with [tform <> time] on an object that has seen no formation
    call raises [AttributeError] ([self.dR] was never set); the object and
    the generator are untouched. *)
Theorem query_before_formation_raises
    (fuel : nat) (self : instance) (g : rng) (zone : Z) (tform time : R) :
  dR self = None -> tform <> time ->
  __call__ fuel self g zone tform time = Some (Raise AttributeError, self, g).
Proof.
  intros Hd Hneq. unfold __call__.
  apply float_eqb_neq in Hneq. now rewrite Hneq, Hd.
Qed.

(** X18: after a completed formation call for a zone, a later call with
    [tform <> time] for that zone or any zone further out hands the
    interpolator the formation radius of the queried zone and a final radius
    [Rform + dR > 0], built from the stored [dR]; it draws nothing and
    changes nothing, however often it is repeated. *)
Theorem query_after_formation
    (fuel fuel' : nat) (self self1 : instance) (g g1 : rng)
    (zone1 zone2 : Z) (t1 tform time : R) (r : outcome pyval) :
  0 < zone_width self -> (zone1 <= zone2)%Z -> tform <> time ->
  __call__ fuel self g zone1 t1 t1 = Some (r, self1, g1) ->
  exists d : R,
    dR self1 = Some d
    /\ 0 < zone_width self * (IZR zone2 + 0.5) + d
    /\ __call__ fuel' self1 g1 zone2 tform time
       = Some (Ret (some_interpolator
                      (zone_width self * (IZR zone2 + 0.5))
                      (zone_width self * (IZR zone2 + 0.5) + d)),
               self1, g1).
Proof.
  intros Hzw Hzones Hneq Hform.
  destruct (formation_call_result _ _ _ _ _ _ _ _ Hform)
    as (d & Hself1 & Hpos).
  exists d. subst self1. cbn [dR zone_width].
  split; [reflexivity|].
  assert (Hle : IZR zone1 <= IZR zone2) by now apply IZR_le.
  split; [nra|].
  unfold __call__. apply float_eqb_neq in Hneq. rewrite Hneq.
  reflexivity.
Qed.

(** X19: the loop of the formation branch runs out of [fuel] iterations
    exactly when each of its first [fuel] draws is rejected: it ends at the
    first draw with [Rform + dR > 0] and never before. *)
Theorem resample_loop_unfinished_iff
    (fuel : nat) (Rform age : R) (g : rng) :
  resample_loop fuel Rform age g = None
  <-> forall j : nat, (j < fuel)%nat -> Rform + draw_at j age g <= 0.
Proof.
  split.
  - intros Hnone j Hj.
    destruct (Rle_dec (Rform + draw_at j age g) 0) as [Hle|Hgt];
      [exact Hle|].
    destruct (resample_loop_complete j fuel Rform age g Hj)
      as (d & g' & Hsome & _); [lra|congruence].
  - intros Hrej.
    destruct (resample_loop fuel Rform age g) as [[d g']|] eqn:Hloop;
      [|reflexivity].
    destruct (resample_loop_some _ _ _ _ _ _ Hloop)
      as (k & Hk & Hd & _ & Hpos & _).
    specialize (Hrej k Hk). rewrite <- Hd in Hrej. lra.
Qed.

End Gaussian_queries.

Section Migr_scale_shape.
Import migration.gaussian_migration.

Lemma real_pow_nonneg (x y : R) : 0 <= real_pow x y.
Proof.
  unfold real_pow. destruct (float_eqb x 0); [lra|].
  left. apply exp_pos.
Qed.

Lemma real_pow_eq_0 (x y : R) : real_pow x y = 0 <-> x = 0.
Proof.
  unfold real_pow. destruct (float_eqb x 0) eqn:E.
  - apply float_eqb_eq in E. tauto.
  - apply float_eqb_neq in E.
    pose proof (exp_pos (y * ln x)) as Hp. unfold Rpower.
    split; intros; [lra|contradiction].
Qed.

Lemma real_pow_monotone (x x' y : R) :
  0 <= x <= x' -> 0 <= y -> real_pow x y <= real_pow x' y.
Proof.
  intros [H0 Hle] Hy.
  destruct (Req_dec_T x 0) as [->|Hx].
  - rewrite real_pow_zero. apply real_pow_nonneg.
  - rewrite !real_pow_pos by lra. apply Rle_Rpower_l; lra.
Qed.

Lemma real_pow_mult (x x' y : R) :
  0 <= x -> 0 <= x' -> real_pow (x * x') y = real_pow x y * real_pow x' y.
Proof.
  intros Hx Hx'.
  destruct (Req_dec_T x 0) as [->|Hnx].
  - rewrite Rmult_0_l, real_pow_zero. ring.
  - destruct (Req_dec_T x' 0) as [->|Hnx'].
    + rewrite Rmult_0_r, real_pow_zero. ring.
    + rewrite !real_pow_pos by (try apply Rmult_lt_0_compat; lra).
      symmetry. apply Rpower_mult_distr; lra.
Qed.

Lemma migr_scale_some (age rform : R) :
  0 <= age -> 0 <= rform ->
  migr_scale age rform
  = Some (1.35 * real_pow age 0.33 * real_pow (rform / 8) 0.61).
Proof.
  intros Ha Hr. unfold migr_scale.
  rewrite (float_pow_nonneg age) by exact Ha.
  now rewrite (float_pow_nonneg (rform / 8)) by lra.
Qed.

(** X20: [migr_scale] returns a float exactly when the age and the formation
    radius are both non-negative (a negative one makes [**] complex); the
    float is never negative, and it is zero exactly when the age or the
    radius is zero. *)
Theorem migr_scale_domain_and_sign (age rform : R) :
  (migr_scale age rform = None <-> age < 0 \/ rform < 0)
  /\ forall s : R,
       migr_scale age rform = Some s ->
       0 <= s /\ (s = 0 <-> age = 0 \/ rform = 0).
Proof.
  destruct (Rlt_dec age 0) as [Ha|Ha].
  - assert (E : float_ltb age 0 = true) by now apply float_ltb_lt.
    unfold migr_scale, float_pow. rewrite E.
    split; [split; [now left|reflexivity]|discriminate].
  - destruct (Rlt_dec rform 0) as [Hr|Hr].
    + assert (E : float_ltb (rform / 8) 0 = true)
        by (apply float_ltb_lt; lra).
      unfold migr_scale. rewrite (float_pow_nonneg age) by lra.
      unfold float_pow. rewrite E.
      split; [split; [now right|reflexivity]|discriminate].
    + rewrite migr_scale_some by lra.
      split; [split; [discriminate|lra]|].
      intros s [= <-].
      pose proof (real_pow_nonneg age 0.33) as Hp1.
      pose proof (real_pow_nonneg (rform / 8) 0.61) as Hp2.
      pose proof (real_pow_eq_0 age 0.33) as Hz1.
      pose proof (real_pow_eq_0 (rform / 8) 0.61) as Hz2.
      split; [nra|]. split.
      * intros Hs.
        destruct (Req_dec_T (real_pow age 0.33) 0) as [H1|H1];
          [left; tauto|].
        destruct (Req_dec_T (real_pow (rform / 8) 0.61) 0) as [H2|H2];
          [right; apply Hz2 in H2; lra|].
        exfalso. nra.
      * intros [-> | ->].
        -- rewrite real_pow_zero. ring.
        -- replace (0 / 8) with 0 by lra. rewrite real_pow_zero. ring.
Qed.

(** X21: [migr_scale] does not decrease when the age or the formation radius
    grows. *)
Theorem migr_scale_monotone (age1 age2 r1 r2 s1 s2 : R) :
  0 <= age1 <= age2 -> 0 <= r1 <= r2 ->
  migr_scale age1 r1 = Some s1 -> migr_scale age2 r2 = Some s2 ->
  s1 <= s2.
Proof.
  intros Hage Hr H1 H2.
  rewrite migr_scale_some in H1, H2 by lra.
  inversion H1; inversion H2; subst. clear H1 H2.
  pose proof (real_pow_monotone age1 age2 0.33 Hage) as Ha.
  pose proof (real_pow_monotone (r1 / 8) (r2 / 8) 0.61) as Hb.
  pose proof (real_pow_nonneg age1 0.33).
  pose proof (real_pow_nonneg (r1 / 8) 0.61).
  assert (real_pow age1 0.33 <= real_pow age2 0.33) by (apply Ha; lra).
  assert (real_pow (r1 / 8) 0.61 <= real_pow (r2 / 8) 0.61)
    by (apply Hb; lra).
  apply Rle_trans
    with (1.35 * real_pow age2 0.33 * real_pow (r1 / 8) 0.61); nra.
Qed.

(** X22: [migr_scale] is a power law: stretching the age by a factor [k]
    multiplies the scale by [k ^ 0.33], and stretching the formation radius
    by [k] multiplies it by [k ^ 0.61]; in particular the scale at age [a]
    and radius [r] is [a ^ 0.33 * (r/8) ^ 0.61] times the scale 1.35 at 1 Gyr
    and 8 kpc. *)
Theorem migr_scale_power_law (k age rform s : R) :
  0 <= k -> 0 <= age -> 0 <= rform ->
  migr_scale age rform = Some s ->
  migr_scale (k * age) rform = Some (real_pow k 0.33 * s)
  /\ migr_scale age (k * rform) = Some (real_pow k 0.61 * s)
  /\ s = real_pow age 0.33 * real_pow (rform / 8) 0.61 * 1.35.
Proof.
  intros Hk Ha Hr Hs.
  rewrite migr_scale_some in Hs by assumption.
  inversion Hs; subst. clear Hs.
  rewrite !migr_scale_some
    by (try apply Rmult_le_pos; assumption).
  replace (k * rform / 8) with (k * (rform / 8)) by lra.
  rewrite !real_pow_mult by lra.
  split; [f_equal; ring|]. split; [f_equal; ring|ring].
Qed.

End Migr_scale_shape.

Lemma query_before_formation_raises_witness :
  migration.gaussian_migration.dR
    (@migration.gaussian_migration.__init__ fixtures.tape_gaussian None)
  = None
  /\ 0 <> 1
  /\ @migration.gaussian_migration.__call__ fixtures.tape_gaussian 0
       (@migration.gaussian_migration.__init__ fixtures.tape_gaussian None)
       [1] 4 0 1
     = Some (Raise AttributeError,
             @migration.gaussian_migration.__init__ fixtures.tape_gaussian None,
             [1]).
Proof.
  assert (Hneq : 0 <> 1) by lra.
  split; [reflexivity|]. split; [exact Hneq|].
  exact (@query_before_formation_raises fixtures.tape_gaussian 0
           (@migration.gaussian_migration.__init__ fixtures.tape_gaussian None)
           [1] 4 0 1 eq_refl Hneq).
Defined.

Lemma query_after_formation_witness :
  0 < 0.1 /\ (4 <= 6)%Z /\ 12.2 <> 13
  /\ exists d : R,
      Some (0 + 1.35 * 1) = Some d
      /\ 0 < 0.1 * (6 + 0.5) + d
      /\ @migration.gaussian_migration.__call__ fixtures.tape_gaussian 0
           {| migration.gaussian_migration.zone_width := 0.1;
              migration.gaussian_migration.dR := Some (0 + 1.35 * 1) |}
           [] 6 12.2 13
         = Some (Ret (PyFloat (0.1 * (6 + 0.5) + d)),
                 {| migration.gaussian_migration.zone_width := 0.1;
                    migration.gaussian_migration.dR := Some (0 + 1.35 * 1) |},
                 []).
Proof.
  assert (Hzw : 0 < 0.1) by lra.
  assert (Hz : (4 <= 6)%Z) by lia.
  assert (Hneq : 12.2 <> 13) by lra.
  split; [exact Hzw|]. split; [exact Hz|]. split; [exact Hneq|].
  exact (@query_after_formation fixtures.tape_gaussian 2 0
           (@migration.gaussian_migration.__init__ fixtures.tape_gaussian None)
           {| migration.gaussian_migration.zone_width := 0.1;
              migration.gaussian_migration.dR := Some (0 + 1.35 * 1) |}
           [-10; 1] [] 4 6 12.2 12.2 13 (Ret PyNone)
           Hzw Hz Hneq tape_formation_call).
Defined.

Lemma resample_loop_unfinished_iff_witness :
  @migration.gaussian_migration.resample_loop fixtures.tape_gaussian
    1 0.45 1 [-10; 1]
  = None.
Proof.
  apply (proj2 (@resample_loop_unfinished_iff fixtures.tape_gaussian
                  1 0.45 1 [-10; 1])).
  intros j Hj. assert (j = O) by lia. subst j.
  unfold migration.gaussian_migration.draw_at.
  cbn [migration.gaussian_migration.rng_after
       migration.gaussian_migration.sample_gaussian
       migration.gaussian_migration.rform fixtures.tape_gaussian fst hd].
  rewrite migr_scale_1_8. lra.
Defined.

Lemma migr_scale_domain_and_sign_witness :
  migration.gaussian_migration.migr_scale (-1) 8 = None
  /\ migration.gaussian_migration.migr_scale 1 8 = Some 1.35
  /\ 0 <= 1.35.
Proof.
  split.
  - apply (proj1 (migr_scale_domain_and_sign (-1) 8)). left. lra.
  - split; [exact migr_scale_1_8|].
    exact (proj1 (proj2 (migr_scale_domain_and_sign 1 8) 1.35 migr_scale_1_8)).
Defined.

Lemma migr_scale_monotone_witness :
  0 <= 0 <= 1 /\ 0 <= 0 <= 8
  /\ 1.35 * real_pow 0 0.33 * real_pow (0 / 8) 0.61 <= 1.35.
Proof.
  assert (Ha : 0 <= 0 <= 1) by lra.
  assert (Hr : 0 <= 0 <= 8) by lra.
  split; [exact Ha|]. split; [exact Hr|].
  exact (migr_scale_monotone 0 1 0 8 _ _ Ha Hr
           (migr_scale_some 0 0 (proj1 Ha) (proj1 Hr)) migr_scale_1_8).
Defined.

Lemma migr_scale_power_law_witness :
  0 <= 2 /\ 0 <= 1 /\ 0 <= 8
  /\ migration.gaussian_migration.migr_scale (2 * 1) 8
     = Some (real_pow 2 0.33 * 1.35).
Proof.
  assert (Hk : 0 <= 2) by lra.
  assert (Ha : 0 <= 1) by lra.
  assert (Hr : 0 <= 8) by lra.
  split; [exact Hk|]. split; [exact Ha|]. split; [exact Hr|].
  exact (proj1 (migr_scale_power_law 2 1 8 1.35 Hk Ha Hr migr_scale_1_8)).
Defined.

(** ** Which draws the pass accepts *)

Section Accepted_draws.
Import replace_zfinal.
Context {RM : random_module} {G : globals}.

(** [inv_sech_cdf] returns exactly on the draws strictly between 0 and 1. *)
Lemma inv_sech_cdf_returns_iff (u scale : R) :
  (exists z, inv_sech_cdf u scale = Ret z) <-> 0 < u < 1.
Proof.
  split.
  - intros [z Hz]. unfold inv_sech_cdf, float_div, math_log in Hz.
    destruct (float_eqb u 0) eqn:E0; cbn [bind] in Hz; [discriminate|].
    destruct (float_ltb 0 (1 / u - 1)) eqn:E1; cbn [bind] in Hz;
      [|discriminate].
    apply float_eqb_neq in E0. apply float_ltb_lt in E1.
    assert (Hinv : 1 < / u) by (unfold Rdiv in E1; lra).
    assert (Hu : 0 < u).
    { destruct (Rlt_dec 0 u) as [Hp|Hn]; [exact Hp|].
      assert (Hneg : u < 0) by lra.
      apply Rinv_lt_0_compat in Hneg. lra. }
    split; [exact Hu|].
    apply (Rmult_lt_compat_l u) in Hinv; [|exact Hu].
    rewrite Rinv_r in Hinv by lra. lra.
  - intros Hu. eexists. now apply inv_sech_cdf_open.
Qed.

(** Whether it raises does not depend on the scale, NaN or not. *)
Lemma inv_sech_cdf_np_returns_iff (u : R) (hz : cell) :
  (exists c, inv_sech_cdf_np u hz = Ret c) <-> 0 < u < 1.
Proof.
  split.
  - intros [c Hc]. apply (inv_sech_cdf_returns_iff u 1).
    destruct hz as [s|]; cbn [inv_sech_cdf_np] in Hc;
      unfold inv_sech_cdf, float_div, math_log in *;
      destruct (float_eqb u 0); cbn [bind] in *; try discriminate;
      destruct (float_ltb 0 (1 / u - 1)); cbn [bind] in *; try discriminate;
      now eexists.
  - intros Hu. eexists. now apply inv_sech_cdf_np_open.
Qed.

(** X23: the sampling loop of the pass returns exactly when every draw it
    takes, one per row, lies strictly between 0 and 1; a single draw of 0,
    of 1 or outside the unit interval makes it raise. *)
Theorem sample_loop_returns_iff (stars : list star_row) (g : rng) :
  (exists zs g', sample_loop stars g = (Ret zs, g'))
  <-> Forall (fun u => 0 < u < 1) (draws (List.length stars) g).
Proof.
  split.
  - revert g. induction stars as [|s rest IH]; intros g (zs & g' & Hloop);
      [constructor|].
    cbn [sample_loop] in Hloop. cbn [List.length draws].
    destruct (random_random g) as [u g1].
    destruct (inv_sech_cdf_np u _) as [z0|e] eqn:Hinv; [|discriminate].
    destruct (sample_loop rest g1) as [[zs'|e] g2] eqn:Hrest; [|discriminate].
    constructor.
    + apply (inv_sech_cdf_np_returns_iff u
               (sech_scale_np (age s) (galr_final s))).
      now exists z0.
    + apply IH. now exists zs', g2.
  - intros Hall. destruct (sample_loop_total stars g Hall) as [zs Hzs].
    now exists zs, (rng_after (List.length stars) g).
Qed.

End Accepted_draws.

Lemma sample_loop_returns_iff_witness :
  exists zs g',
    @replace_zfinal.sample_loop fixtures.tape_random
      [ {| replace_zfinal.age := Some 5;
           replace_zfinal.galr_origin := Some 0.4;
           replace_zfinal.galr_final := Some 8 |} ] [0.25]
    = (Ret zs, g').
Proof.
  apply (proj2 (@sample_loop_returns_iff fixtures.tape_random _ [0.25])).
  cbn. repeat constructor; lra.
Defined.
